(** * django-timezones: [timezones/fields.py]

    A shallow embedding of the two model fields of [timezones/fields.py]
    ([TimeZoneField], [LocalizedDateTimeField] and the descriptor
    [LocalizedDateTimeFieldProperty]) and the properties claimed of them.

    The module is Python 2 code running inside Django with pytz.  What the
    module itself does is embedded as functions; what it calls in pytz and
    in Django is taken from the two interfaces [Pytz] and [Django] below,
    so that every statement holds for any timezone database and any host
    framework, and is instantiated on a small concrete one in
    [Module Sample]. *)

From stdpp Require Import gmap strings list fin_maps.
From Stdlib Require Import ZArith Lia.

Local Open Scope Z_scope.

(** ** Python exceptions and fallible computations *)

Inductive exn : Type :=
| AttributeError
| KeyError
| TypeError
| AssertionError
| UnknownTimeZoneError
| ValidationError.

Inductive result (A : Type) : Type :=
| Ok (a : A)
| Raise (e : exn).
Arguments Ok {A} a.
Arguments Raise {A} e.

#[global] Instance result_ret : MRet result := fun A a => Ok a.
#[global] Instance result_bind : MBind result := fun A B k c =>
  match c with
  | Ok a => k a
  | Raise e => Raise e
  end.

(** ** Timezones and datetimes

    A [tzinfo] is a timezone object: its identifier ([str(tz)], pytz's
    [zone]) and its UTC offset, once as a function of the local wall clock
    (what [localize] and [utcoffset] use) and once as a function of the UTC
    instant (what [fromutc], hence [astimezone], uses).  Times and offsets
    are integers in one unit (seconds). *)

Record tzinfo : Type := {
  zone : string;
  utcoffset_local : Z -> Z;
  utcoffset_utc : Z -> Z
}.

(** The tzinfo attached to an aware datetime, with the offset in force. *)
Record attached : Type := {
  att_tz : tzinfo;
  att_offset : Z
}.

(** [datetime.datetime]: the wall clock and the [tzinfo] attribute
    ([None] for a naive value). *)
Record datetime : Type := {
  wall : Z;
  dt_tzinfo : option attached
}.

Definition naive (dt : datetime) : Prop := dt_tzinfo dt = None.

(** The absolute (UTC) instant of an aware datetime. *)
Definition instant (dt : datetime) : option Z :=
  match dt_tzinfo dt with
  | Some a => Some (wall dt - att_offset a)
  | None => None
  end.

(** [tz.localize(dt)] on a naive [dt]: the wall clock is kept and the
    zone's offset at that wall clock is attached. *)
Definition localize (tz : tzinfo) (dt : datetime) : datetime :=
  {| wall := wall dt;
     dt_tzinfo := Some {| att_tz := tz; att_offset := utcoffset_local tz (wall dt) |} |}.

(** [dt.astimezone(tz)] on an aware [dt] with attachment [a]: the UTC
    instant is kept and re-expressed with the offset [tz] has then. *)
Definition astimezone (dt : datetime) (a : attached) (tz : tzinfo) : datetime :=
  let utc := wall dt - att_offset a in
  {| wall := utc + utcoffset_utc tz utc;
     dt_tzinfo := Some {| att_tz := tz; att_offset := utcoffset_utc tz utc |} |}.

(** ** Python values *)

Inductive pyval : Type :=
| PyNone
| PyBool (b : bool)
| PyStr (s : string)
| PyDatetime (dt : datetime)
| PyTimezone (tz : tzinfo)      (* a pytz timezone: has [localize] *)
| PyTzinfo (tz : tzinfo).       (* another [datetime.tzinfo]: no [localize] *)

(** [obj.__dict__] of a model instance. *)
Abbreviation instance := (gmap string pyval).

(** ** The libraries the module runs on *)

(** pytz: [pytz.timezone] ([None] stands for [UnknownTimeZoneError]) and
    [pytz.all_timezones_set]. *)
Class Pytz : Type := {
  pytz_timezone : string -> option tzinfo;
  all_timezones_set : gset string
}.

(** Django: the methods of [models.CharField] and [models.DateTimeField]
    that the two fields reach through [super], and [str()] of the values
    whose text the module does not determine. *)
Class Django : Type := {
  CharField_to_python : pyval -> result pyval;
  CharField_get_db_prep_save : pyval -> result pyval;
  DateTimeField_to_python : pyval -> result pyval;
  DateTimeField_get_db_prep_save : pyval -> result pyval;
  DateTimeField_get_db_prep_lookup : string -> pyval -> result pyval;
  py_str : pyval -> string
}.

(** [django.conf.settings], as far as the module reads it. *)
Record settings : Type := {
  setting_MAX_TIMEZONE_LENGTH : option Z;
  setting_TIME_ZONE : option string
}.

Definition getattr {A : Type} (o : option A) (default : A) : A :=
  match o with
  | Some a => a
  | None => default
  end.

(** ** Module level (lines 12-18) *)

(** [reduce(function, sequence, initial)]. *)
Definition reduce {A B : Type} (f : A -> B -> A) (l : list B) (a : A) : A :=
  fold_left f l a.

(** The check the assertion was written for: every choice is at most
    [MAX_TIMEZONE_LENGTH] long.  [len] is the length of one entry of
    [forms.ALL_TIMEZONE_CHOICES], which [timezones/forms.py] defines. *)
Definition choices_fit {C : Type} (len : C -> Z) (max_len : Z) (choices : list C) : bool :=
  reduce (fun x y => x && (len y <=? max_len)) choices true.

(** Truth value of a tuple: it is true when it is not empty. *)
Definition tuple_truth {A : Type} (t : list A) : bool :=
  match t with
  | [] => false
  | _ :: _ => true
  end.

Definition py_assert (b : bool) : result unit :=
  if b then Ok tt else Raise AssertionError.

(** Lines 16-18: [assert(reduce(...), "...")] is the assert statement
    applied to one parenthesised expression, the pair. *)
Definition module_assert {C : Type} (len : C -> Z) (max_len : Z) (choices : list C)
  : result unit :=
  py_assert (tuple_truth
    [PyBool (choices_fit len max_len choices);
     PyStr "timezones.fields.TimeZoneField MAX_TIMEZONE_LENGTH is too small"]).

Definition MAX_TIMEZONE_LENGTH (st : settings) : Z :=
  getattr (setting_MAX_TIMEZONE_LENGTH st) 100.

(** What importing the module leaves behind. *)
Record globals : Type := {
  g_MAX_TIMEZONE_LENGTH : Z;
  g_default_tz : tzinfo
}.

Section ModuleLevel.
Context {P : Pytz}.

Definition timezone_or_raise (s : string) : result tzinfo :=
  match pytz_timezone s with
  | Some tz => Ok tz
  | None => Raise UnknownTimeZoneError
  end.

Definition default_tz_of (st : settings) : result tzinfo :=
  timezone_or_raise (getattr (setting_TIME_ZONE st) "UTC"%string).

Definition import_module {C : Type} (st : settings) (len : C -> Z) (choices : list C)
  : result globals :=
  let max_len := MAX_TIMEZONE_LENGTH st in
  tz ← default_tz_of st;
  _ ← module_assert len max_len choices;
  Ok {| g_MAX_TIMEZONE_LENGTH := max_len; g_default_tz := tz |}.

End ModuleLevel.

(** [smart_str] and [smart_unicode] of [django.utils.encoding]: a string is
    returned as it is (strings are byte sequences here), a pytz timezone
    prints as its [zone], anything else as its [str()]. *)
Definition smart_str (s : string) : string := s.

Definition smart_unicode {D : Django} (value : pyval) : string :=
  match value with
  | PyStr s => s
  | PyTimezone tz => zone tz
  | _ => py_str value
  end.

(** ** Form support

    A keyword argument of [formfield] is a form class, named by its
    qualified name, or a value.  [Forms] is what the form methods reach in
    Django: the [formfield] of the two parent classes, which build a form
    field from the keyword arguments, and [Field._get_val_from_obj]. *)

Inductive kwarg : Type :=
| FormClass (qualname : string)
| KwValue (v : pyval).

Class Forms : Type := {
  form_field : Type;
  CharField_formfield : gmap string kwarg -> form_field;
  DateTimeField_formfield : gmap string kwarg -> form_field;
  _get_val_from_obj : option instance -> result pyval
}.

(** [defaults.update(kwargs)]: the entries of [kwargs] replace those of
    [defaults] with the same key. *)
Definition update (defaults kwargs : gmap string kwarg) : gmap string kwarg :=
  kwargs ∪ defaults.

(** ** class TimeZoneField (lines 20-51) *)

Module TimeZoneField.
Section Methods.
Context {P : Pytz} {D : Django}.

(** Lines 23-28.  Of the keyword arguments that [__init__] hands to
    [CharField.__init__] the length bound is kept here:
    [defaults.update(kwargs)] lets the caller's [max_length] win over
    [MAX_TIMEZONE_LENGTH]. *)
Record options : Type := {
  max_length : Z
}.

Definition __init__ (st : settings) (kw_max_length : option Z) : options :=
  {| max_length := getattr kw_max_length (MAX_TIMEZONE_LENGTH st) |}.

(** Lines 30-34.  [pytz.timezone] of a value that is no string fails on
    its first attribute access. *)
Definition to_python (value : pyval) : result pyval :=
  value ← CharField_to_python value;
  match value with
  | PyNone => Ok PyNone
  | PyStr s => tz ← timezone_or_raise s; Ok (PyTimezone tz)
  | _ => Raise AttributeError
  end.

(** Lines 36-40. *)
Definition get_db_prep_save (value : pyval) : result pyval :=
  let value :=
    match value with
    | PyNone => value
    | _ => PyStr (smart_unicode value)
    end in
  CharField_get_db_prep_save value.

(** Write then read: the attribute is assigned (the [SubfieldBase]
    metaclass passes the assigned value through [to_python]), saved, and
    the saved column value is loaded again. *)
Definition round_trip (value : pyval) : result pyval :=
  held ← to_python value;
  column ← get_db_prep_save held;
  to_python column.

End Methods.

Section FormMethods.
Context {P : Pytz} {D : Django} {F : Forms}.

(** Lines 42-46.  [attname] is [self.attname]; the result is the
    one-entry dict. *)
Definition flatten_data (attname : string) (follow : pyval) (obj : option instance)
  : result (gmap string string) :=
  value ← _get_val_from_obj obj;
  let value :=
    match value with
    | PyNone => PyStr ""
    | _ => value
    end in
  Ok {[ attname := smart_unicode value ]}.

(** Lines 48-50: the keyword arguments handed to [CharField.formfield]. *)
Definition formfield_defaults (kwargs : gmap string kwarg) : gmap string kwarg :=
  let defaults : gmap string kwarg :=
    {[ "form_class"%string := FormClass "forms.TimeZoneField" ]} in
  update defaults kwargs.

(** Lines 48-51. *)
Definition formfield (kwargs : gmap string kwarg) : form_field :=
  CharField_formfield (formfield_defaults kwargs).

End FormMethods.
End TimeZoneField.

(** ** The timezone context of a LocalizedDateTimeField

    [timezone] is a value (a string, a timezone object, [None], ...) or a
    callable.  Of a callable the descriptor reads where its code object is
    found and that code's [co_argcount], and calls it with no argument or
    with the model instance; [call0] and [call1] are what those two calls
    do. *)

Inductive code_location : Type :=
| func_code (co_argcount : Z)     (* hasattr(timezone, 'func_code') *)
| im_func (co_argcount : Z)       (* else hasattr(timezone, 'im_func') *)
| call_method (co_argcount : Z).  (* else timezone.__call__.func_code *)

Record callable : Type := {
  code : code_location;
  call0 : result pyval;
  call1 : instance -> result pyval
}.

Inductive tzcontext : Type :=
| Value (v : pyval)
| Callable (c : callable).

(** The attributes of a LocalizedDateTimeField that the module uses:
    [name] (set when the field is contributed to its class) and
    [timezone]. *)
Record field : Type := {
  name : string;
  timezone : tzcontext
}.

(** ** class LocalizedDateTimeFieldProperty (lines 54-107) *)

Module LocalizedDateTimeFieldProperty.
Section Methods.
Context {P : Pytz} {D : Django} (default_tz : tzinfo).

(** Line 62: ['_%s_cache' % self.field.name]. *)
Definition cache_attname (self : field) : string :=
  ("_" +:+ name self +:+ "_cache")%string.

(** Lines 74-79. *)
Definition argcount (c : callable) : Z :=
  match code c with
  | func_code n => n
  | im_func n => n - 1
  | call_method n => n
  end.

(** Lines 71-83: a callable context is called. *)
Definition call_timezone (timezone : tzcontext) (obj : instance) : result pyval :=
  match timezone with
  | Callable c => if argcount c =? 1 then call1 c obj else call0 c
  | Value v => Ok v
  end.

(** Lines 85-91: a string is looked up, with [default_tz] for an unknown
    one; anything else is taken as the tzinfo. *)
Definition resolve (timezone : pyval) : pyval :=
  match timezone with
  | PyStr s =>
      match pytz_timezone s with
      | Some tz => PyTimezone tz
      | None => PyTimezone default_tz
      end
  | _ => timezone
  end.

(** [tzinfo.localize(dt)]: only a pytz timezone has the method. *)
Definition tzinfo_localize (tzinfo : pyval) (dt : datetime) : result datetime :=
  match tzinfo with
  | PyTimezone tz => Ok (localize tz dt)
  | _ => Raise AttributeError
  end.

(** [dt.astimezone(tzinfo)]: the argument must be a [datetime.tzinfo]. *)
Definition dt_astimezone (dt : datetime) (a : attached) (tzinfo : pyval) : result datetime :=
  match tzinfo with
  | PyTimezone tz | PyTzinfo tz => Ok (astimezone dt a tz)
  | _ => Raise TypeError
  end.

(** Lines 96-99. *)
Definition attach (tzinfo : pyval) (dt : datetime) : result datetime :=
  match dt_tzinfo dt with
  | None => tzinfo_localize tzinfo dt
  | Some a => dt_astimezone dt a tzinfo
  end.

(** [obj.__dict__[key]]. *)
Definition getitem (d : instance) (key : string) : result pyval :=
  match d !! key with
  | Some v => Ok v
  | None => Raise KeyError
  end.

(** Lines 64-101.  The result is the value returned and [obj.__dict__]
    afterwards; an exception leaves [obj.__dict__] as it was. *)
Definition __get__ (self : field) (obj : option instance) : result (pyval * instance) :=
  match obj with
  | None => Raise AttributeError
  | Some d =>
      let timezone := timezone self in
      match d !! cache_attname self with
      | Some _ => v ← getitem d (cache_attname self); Ok (v, d)
      | None =>
          timezone ← call_timezone timezone d;
          let tzinfo := resolve timezone in
          dt ← getitem d (name self);
          match dt with
          | PyDatetime dt' =>
              cached ← attach tzinfo dt';
              let d := <[cache_attname self := PyDatetime cached]> d in
              v ← getitem d (cache_attname self); Ok (v, d)
          | _ => Ok (dt, d)
          end
      end
  end.

(** Lines 103-107.  [to_python] is the field's, inherited from
    [models.DateTimeField]. *)
Definition __set__ (self : field) (obj : instance) (value : pyval) : result instance :=
  value ← DateTimeField_to_python value;
  let d := <[name self := value]> obj in
  match d !! cache_attname self with
  | Some _ => Ok (delete (cache_attname self) d)
  | None => Ok d
  end.

End Methods.
End LocalizedDateTimeFieldProperty.

(** ** class LocalizedDateTimeField (lines 110-160) *)

Module LocalizedDateTimeField.
Section Methods.
Context {P : Pytz} {D : Django} (default_tz : tzinfo).

(** Lines 123-130.  The [timezone] argument is optional and defaults to
    [None]; [name] is the name the field gets in its class.  Of the values
    here only a string can be a member of [pytz.all_timezones_set]. *)
Definition __init__ (name : string) (timezone : option tzcontext) : result field :=
  let timezone := getattr timezone (Value PyNone) in
  let timezone :=
    match timezone with
    | Value (PyStr s) => Value (PyStr (smart_str s))
    | _ => timezone
    end in
  match timezone with
  | Value (PyStr s) =>
      if decide (s ∈ all_timezones_set)
      then tz ← timezone_or_raise s;
           Ok {| name := name; timezone := Value (PyTimezone tz) |}
      else Ok {| name := name; timezone := timezone |}
  | _ => Ok {| name := name; timezone := timezone |}
  end.

(** [value.tzinfo]. *)
Definition get_tzinfo (value : pyval) : result (datetime * option attached) :=
  match value with
  | PyDatetime dt => Ok (dt, dt_tzinfo dt)
  | _ => Raise AttributeError
  end.

(** Lines 142-146: the conversion before the call to [super]. *)
Definition save_conversion (value : pyval) : result pyval :=
  match value with
  | PyNone => Ok value
  | _ =>
      '(dt, tz) ← get_tzinfo value;
      match tz with
      | None => Ok (PyDatetime (localize default_tz dt))
      | Some a => Ok (PyDatetime (astimezone dt a default_tz))
      end
  end.

(** Lines 139-147. *)
Definition get_db_prep_save (value : pyval) : result pyval :=
  value ← save_conversion value;
  DateTimeField_get_db_prep_save value.

(** Lines 152-155: the conversion before the call to [super]. *)
Definition lookup_conversion (value : pyval) : result pyval :=
  '(dt, tz) ← get_tzinfo value;
  match tz with
  | None => Ok (PyDatetime (localize default_tz dt))
  | Some a => Ok (PyDatetime (astimezone dt a default_tz))
  end.

(** Lines 149-156. *)
Definition get_db_prep_lookup (lookup_type : string) (value : pyval) : result pyval :=
  value ← lookup_conversion value;
  DateTimeField_get_db_prep_lookup lookup_type value.

End Methods.

Section FormMethods.
Context {P : Pytz} {D : Django} {F : Forms} (callable_str : callable -> string).

(** [isinstance(self.timezone, basestring)]. *)
Definition is_basestring (timezone : tzcontext) : bool :=
  match timezone with
  | Value (PyStr _) => true
  | _ => false
  end.

(** [str(self.timezone)]: the string itself, the [zone] of a pytz
    timezone, and for a callable the text [callable_str] gives. *)
Definition str (timezone : tzcontext) : string :=
  match timezone with
  | Value v => smart_unicode v
  | Callable c => callable_str c
  end.

(** Lines 133-136: the keyword arguments handed to
    [DateTimeField.formfield]. *)
Definition formfield_defaults (self : field) (kwargs : gmap string kwarg)
  : gmap string kwarg :=
  let defaults : gmap string kwarg :=
    {[ "form_class"%string := FormClass "forms.LocalizedDateTimeField" ]} in
  let defaults :=
    if negb (is_basestring (timezone self))
       && bool_decide (str (timezone self) ∈ all_timezones_set)
    then <[ "timezone"%string := KwValue (PyStr (str (timezone self))) ]> defaults
    else defaults in
  update defaults kwargs.

(** Lines 132-137. *)
Definition formfield (self : field) (kwargs : gmap string kwarg) : form_field :=
  DateTimeField_formfield (formfield_defaults self kwargs).

End FormMethods.
End LocalizedDateTimeField.

(** ** Sequences of descriptor reads and writes on one attribute *)

Inductive access : Type :=
| Read
| Write (value : pyval).

Section Accesses.
Context {P : Pytz} {D : Django} (default_tz : tzinfo).
Import LocalizedDateTimeFieldProperty.

(** One access by a caller who goes on after an exception: a read or a
    write that raises leaves [obj.__dict__] as it was. *)
Definition access_step (self : field) (d : instance) (a : access) : instance :=
  match a with
  | Read =>
      match __get__ default_tz self (Some d) with
      | Ok (_, d') => d'
      | Raise _ => d
      end
  | Write value =>
      match __set__ self d value with
      | Ok d' => d'
      | Raise _ => d
      end
  end.

Definition run (self : field) (l : list access) (d : instance) : instance :=
  fold_left (access_step self) l d.

(** The cache entry, when there is one, is the current stored datetime
    attached to the timezone the context gives on this instance. *)
Definition cache_consistent (self : field) (d : instance) : Prop :=
  forall c, d !! cache_attname self = Some c ->
    exists dt ctx cached,
      d !! name self = Some (PyDatetime dt) /\
      call_timezone (timezone self) (delete (cache_attname self) d) = Ok ctx /\
      attach (resolve default_tz ctx) dt = Ok cached /\
      c = PyDatetime cached.

(** A string that is no timezone identifier: not in
    [pytz.all_timezones_set], and [pytz.timezone] raises on it. *)
Definition unknown_identifier (s : string) : Prop :=
  (s ∉ all_timezones_set) /\ pytz_timezone s = None.

End Accesses.

(** ** A small timezone database and host framework

    Three zones, with New York's daylight saving time of 2023 (from
    2023-03-12 07:00 UTC to 2023-11-05 06:00 UTC; on the wall clock the
    skipped and the repeated hour count as standard time, as [localize]
    does by default).  The Django methods are those of Django 1.0 on a
    field with [null=True] for the values used here. *)

Module Sample.

Definition utc : tzinfo :=
  {| zone := "UTC"; utcoffset_local := fun _ => 0; utcoffset_utc := fun _ => 0 |}.

Definition new_york : tzinfo :=
  {| zone := "America/New_York";
     utcoffset_local := fun w =>
       if (1678590000 <=? w) && negb (1699146000 <=? w) then -14400 else -18000;
     utcoffset_utc := fun u =>
       if (1678604400 <=? u) && negb (1699164000 <=? u) then -14400 else -18000 |}.

Definition tokyo : tzinfo :=
  {| zone := "Asia/Tokyo";
     utcoffset_local := fun _ => 32400; utcoffset_utc := fun _ => 32400 |}.

Definition zones : list tzinfo := [utc; new_york; tokyo].

#[local] Instance pytz : Pytz :=
  {| pytz_timezone := fun s => find (fun tz => bool_decide (zone tz = s)) zones;
     all_timezones_set := list_to_set (zone <$> zones) |}.

Definition str (v : pyval) : string :=
  match v with
  | PyNone => "None"
  | PyBool true => "True"
  | PyBool false => "False"
  | PyStr s => s
  | PyDatetime _ => "datetime"
  | PyTimezone tz | PyTzinfo tz => zone tz
  end.

Definition pass_datetime (v : pyval) : result pyval :=
  match v with
  | PyNone | PyDatetime _ => Ok v
  | _ => Raise ValidationError
  end.

#[local] Instance django : Django :=
  {| CharField_to_python := fun v =>
       match v with
       | PyNone | PyStr _ => Ok v
       | _ => Ok (PyStr (str v))
       end;
     CharField_get_db_prep_save := Ok;
     DateTimeField_to_python := pass_datetime;
     DateTimeField_get_db_prep_save := Ok;
     DateTimeField_get_db_prep_lookup := fun _ => Ok;
     py_str := str |}.

Definition conf : settings :=
  {| setting_MAX_TIMEZONE_LENGTH := None; setting_TIME_ZONE := None |}.

(** 2023-06-01 12:00:00, naive. *)
Definition noon : datetime := {| wall := 1685620800; dt_tzinfo := None |}.

(** 2023-01-01 00:00:00, naive. *)
Definition new_year : datetime := {| wall := 1672531200; dt_tzinfo := None |}.

(** 2023-06-01 12:00:00-04:00. *)
Definition noon_ny : datetime := localize new_york noon.

Definition when : field := {| name := "when"; timezone := Value (PyTimezone new_york) |}.

(** [timezone=lambda i: i.timezone]. *)
Definition timezone_of_instance : callable :=
  {| code := func_code 1;
     call0 := Raise TypeError;
     call1 := fun obj =>
       match obj !! "timezone"%string with
       | Some v => Ok v
       | None => Raise AttributeError
       end |}.

(** A string that names no zone of the database. *)
Definition olympus : string := "Mars/Olympus".

(** An instance that holds [noon] under [when], before and after it is
    read. *)
Definition stored_noon : instance := {[ "when"%string := PyDatetime noon ]}.

Definition cached_noon : instance :=
  <[ "_when_cache"%string := PyDatetime noon_ny ]> stored_noon.

(** A second datetime field of the same model, and the field that
    [__init__] builds from the identifier "Asia/Tokyo". *)
Definition ends : field := {| name := "ends"; timezone := Value (PyTimezone utc) |}.

Definition when_tokyo : field :=
  {| name := "when"; timezone := Value (PyTimezone tokyo) |}.

(** An instance whose [timezone] attribute holds the Tokyo timezone. *)
Definition in_tokyo : instance := {[ "timezone"%string := PyTimezone tokyo ]}.

(** Form fields are shown as the keyword arguments they are built from;
    [_get_val_from_obj] is that of a field whose attribute is [timezone]
    and whose default is "UTC". *)
#[local] Instance forms : Forms :=
  {| form_field := gmap string kwarg;
     CharField_formfield := fun kwargs => kwargs;
     DateTimeField_formfield := fun kwargs => kwargs;
     _get_val_from_obj := fun obj =>
       match obj with
       | Some d =>
           match d !! "timezone"%string with
           | Some v => Ok v
           | None => Raise AttributeError
           end
       | None => Ok (PyStr "UTC")
       end |}.

(** [str()] of a function: no timezone identifier. *)
Definition function_str (c : callable) : string := "<function>".

End Sample.

(** * Properties *)

(** ** Localizing and converting *)

Lemma localize_keeps_wall_clock (tz : tzinfo) (dt : datetime) :
  wall (localize tz dt) = wall dt /\
  dt_tzinfo (localize tz dt) =
    Some {| att_tz := tz; att_offset := utcoffset_local tz (wall dt) |}.
Proof. split; reflexivity. Qed.

Lemma astimezone_keeps_instant (dt : datetime) (a : attached) (tz : tzinfo) :
  dt_tzinfo dt = Some a ->
  instant (astimezone dt a tz) = instant dt /\
  att_tz <$> dt_tzinfo (astimezone dt a tz) = Some tz.
Proof.
  intros Ha. unfold instant. rewrite Ha. cbn. split; [f_equal; lia | reflexivity].
Qed.

Lemma length_append (s t : string) :
  String.length (s +:+ t) = (String.length s + String.length t)%nat.
Proof.
  induction s as [|c s IH]; [reflexivity|].
  change (S (String.length (s +:+ t)) = S (String.length s + String.length t)).
  now f_equal.
Qed.

(** ** The descriptor *)

Section Descriptor.
Context {P : Pytz} {D : Django} (default_tz : tzinfo).
Import LocalizedDateTimeFieldProperty.

(** The cache slot is never the slot of the stored value. *)
Lemma cache_attname_ne (self : field) : cache_attname self ≠ name self.
Proof.
  unfold cache_attname. intros Heq. apply (f_equal String.length) in Heq.
  rewrite !length_append in Heq. cbn in Heq. lia.
Qed.

Lemma get_cached (self : field) (d : instance) (c : pyval) :
  d !! cache_attname self = Some c ->
  __get__ default_tz self (Some d) = Ok (c, d).
Proof. intros Hc. unfold __get__, getitem. rewrite Hc. reflexivity. Qed.

Lemma get_fresh (self : field) (d : instance) (ctx : pyval) (dt r : datetime) :
  d !! cache_attname self = None ->
  call_timezone (timezone self) d = Ok ctx ->
  d !! name self = Some (PyDatetime dt) ->
  attach (resolve default_tz ctx) dt = Ok r ->
  __get__ default_tz self (Some d) =
    Ok (PyDatetime r, <[cache_attname self := PyDatetime r]> d).
Proof.
  intros Hc Hctx Hdt Hr. unfold __get__, getitem.
  rewrite Hc, Hctx. cbn. rewrite Hdt. cbn. rewrite Hr. cbn.
  rewrite lookup_insert_eq. reflexivity.
Qed.

Lemma get_not_datetime (self : field) (d : instance) (ctx v : pyval) :
  d !! cache_attname self = None ->
  call_timezone (timezone self) d = Ok ctx ->
  d !! name self = Some v ->
  (forall dt, v ≠ PyDatetime dt) ->
  __get__ default_tz self (Some d) = Ok (v, d).
Proof.
  intros Hc Hctx Hv Hnd. unfold __get__, getitem.
  rewrite Hc, Hctx. cbn. rewrite Hv. cbn.
  destruct v; try reflexivity. now destruct (Hnd dt).
Qed.

(** What a read that returns has done: the cache was there and is
    returned, or a non-datetime is passed through, or the stored datetime
    was attached to the resolved context and cached. *)
Lemma get_returns_inv (self : field) (d d' : instance) (v : pyval) :
  __get__ default_tz self (Some d) = Ok (v, d') ->
  (d !! cache_attname self = Some v /\ d' = d) \/
  (d !! cache_attname self = None /\ d !! name self = Some v /\
   (forall dt, v ≠ PyDatetime dt) /\ d' = d) \/
  (exists ctx dt r,
     d !! cache_attname self = None /\
     call_timezone (timezone self) d = Ok ctx /\
     d !! name self = Some (PyDatetime dt) /\
     attach (resolve default_tz ctx) dt = Ok r /\
     v = PyDatetime r /\ d' = <[cache_attname self := PyDatetime r]> d).
Proof.
  unfold __get__, getitem. destruct (d !! cache_attname self) as [c|] eqn:Hc.
  - cbn. intros [= <- <-]. left. split; reflexivity.
  - destruct (call_timezone (timezone self) d) as [ctx|e] eqn:Hctx; cbn; [|discriminate].
    destruct (d !! name self) as [w|] eqn:Hw; cbn; [|discriminate].
    destruct w as [ | b | s | dt | tz | tz ]; cbn;
      try (intros [= <- <-]; right; left; repeat split; congruence).
    destruct (attach (resolve default_tz ctx) dt) as [r|e] eqn:Hr; cbn; [|discriminate].
    rewrite lookup_insert_eq. cbn. intros [= <- <-].
    right; right. exists ctx, dt, r. repeat split; (assumption || reflexivity).
Qed.

Lemma set_returns_inv (self : field) (d d' : instance) (value : pyval) :
  __set__ self d value = Ok d' ->
  exists v, DateTimeField_to_python value = Ok v /\
            d' = delete (cache_attname self) (<[name self := v]> d).
Proof.
  unfold __set__. destruct (DateTimeField_to_python value) as [v|e]; cbn; [|discriminate].
  intros Hd. exists v. split; [reflexivity|].
  destruct (<[name self := v]> d !! cache_attname self) eqn:Hc.
  - congruence.
  - rewrite delete_id by exact Hc. congruence.
Qed.

(** C1 as amended: on an instance whose stored value is a datetime and
    whose cache slot is empty, when the field's timezone context (the value
    itself, or what the callable returns on this instance) is a pytz
    timezone, or a string, which stands for [pytz.timezone] of it or for
    the default timezone when pytz does not know it, or, for an aware
    stored value, any other tzinfo, a read returns the stored datetime
    attached to that timezone [tz] and leaves it in the cache slot.  A
    naive value is localized: same wall clock, the offset [tz] has at that
    wall clock.  An aware value is converted: same absolute instant,
    expressed in [tz]. *)
Theorem get_attaches_timezone_of_context
    (self : field) (d : instance) (dt : datetime) (ctx : pyval) (tz : tzinfo) :
  d !! name self = Some (PyDatetime dt) ->
  d !! cache_attname self = None ->
  call_timezone (timezone self) d = Ok ctx ->
  (ctx = PyTimezone tz \/
   (exists s, ctx = PyStr s /\ pytz_timezone s = Some tz) \/
   (exists s, ctx = PyStr s /\ pytz_timezone s = None /\ tz = default_tz) \/
   (ctx = PyTzinfo tz /\ ~ naive dt)) ->
  exists r d',
    __get__ default_tz self (Some d) = Ok (PyDatetime r, d') /\
    d' = <[cache_attname self := PyDatetime r]> d /\
    d' !! cache_attname self = Some (PyDatetime r) /\
    att_tz <$> dt_tzinfo r = Some tz /\
    (naive dt ->
       r = localize tz dt /\ wall r = wall dt /\
       att_offset <$> dt_tzinfo r = Some (utcoffset_local tz (wall dt))) /\
    (forall a, dt_tzinfo dt = Some a ->
       r = astimezone dt a tz /\ instant r = instant dt).
Proof.
  intros Hdt Hc Hctx Hcase.
  assert (Hr : exists r, attach (resolve default_tz ctx) dt = Ok r /\
             r = match dt_tzinfo dt with
                 | None => localize tz dt
                 | Some a => astimezone dt a tz
                 end).
  { unfold attach, naive in *.
    destruct Hcase as [-> | [(s & -> & Hs) | [(s & -> & Hs & ->) | (-> & Hn)]]]; cbn.
    - destruct (dt_tzinfo dt); cbn; eauto.
    - rewrite Hs. destruct (dt_tzinfo dt); cbn; eauto.
    - rewrite Hs. destruct (dt_tzinfo dt); cbn; eauto.
    - destruct (dt_tzinfo dt); cbn; [eauto | now destruct Hn]. }
  destruct Hr as (r & Hr & Hrdef).
  exists r, (<[cache_attname self := PyDatetime r]> d).
  split; [now apply get_fresh with ctx dt|].
  split; [reflexivity|]. split; [apply lookup_insert_eq|].
  unfold naive. destruct (dt_tzinfo dt) as [a|] eqn:Ha; subst r.
  - split; [reflexivity|]. split; [discriminate|].
    intros a' [= <-]. split; [reflexivity|]. now apply astimezone_keeps_instant.
  - split; [reflexivity|]. split; [|discriminate].
    intros _. repeat split.
Qed.

(** C3: when a read of a stored datetime returns, the read that follows
    it returns the same value, which is the cache entry the first read
    left, and changes nothing; it returns that entry whatever the
    timezone context is by then, so nothing is computed again. *)
Theorem get_twice_same_object
    (self : field) (d d1 : instance) (dt : datetime) (v : pyval) :
  d !! name self = Some (PyDatetime dt) ->
  __get__ default_tz self (Some d) = Ok (v, d1) ->
  d1 !! cache_attname self = Some v /\
  __get__ default_tz self (Some d1) = Ok (v, d1) /\
  (forall context,
     __get__ default_tz {| name := name self; timezone := context |} (Some d1)
       = Ok (v, d1)).
Proof.
  intros Hdt Hget.
  assert (Hc : d1 !! cache_attname self = Some v).
  { apply get_returns_inv in Hget as [(Hc & ->) | [(_ & Hv & Hnd & _) | Hfresh]].
    - exact Hc.
    - rewrite Hdt in Hv. injection Hv as <-. now destruct (Hnd dt).
    - destruct Hfresh as (ctx & dt' & r & _ & _ & _ & _ & -> & ->).
      apply lookup_insert_eq. }
  split; [exact Hc|]. split; [now apply get_cached|].
  intros context. now apply get_cached.
Qed.

(** Reads and writes keep the cache consistent. *)
Lemma access_step_consistent (self : field) (d : instance) (a : access) :
  cache_consistent default_tz self d ->
  cache_consistent default_tz self (access_step default_tz self d a).
Proof.
  intros Hd. destruct a as [|value]; unfold access_step.
  - destruct (__get__ default_tz self (Some d)) as [[v d']|e] eqn:Hget; [|exact Hd].
    apply get_returns_inv in Hget
      as [(_ & ->) | [(_ & _ & _ & ->) | Hfresh]]; try exact Hd.
    destruct Hfresh as (ctx & dt & r & Hc & Hctx & Hdt & Hr & -> & ->).
    intros c. rewrite lookup_insert_eq. intros [= <-].
    exists dt, ctx, r. rewrite delete_insert_id by exact Hc.
    rewrite lookup_insert_ne by apply cache_attname_ne. auto.
  - destruct (__set__ self d value) as [d'|e] eqn:Hset; [|exact Hd].
    apply set_returns_inv in Hset as (v & _ & ->).
    intros c. rewrite lookup_delete_eq. discriminate.
Qed.

(** C2: a write that returns has stored the normalized value and left no
    cache entry; the read after it returns the new value, attached to the
    context when it is a datetime and as it is otherwise, never an older
    cache entry; and along every sequence of reads and writes the cache
    entry, when there is one, is the stored datetime attached to the
    context. *)
Theorem write_clears_cache (self : field) :
  (forall d value d',
     __set__ self d value = Ok d' ->
     d' !! cache_attname self = None /\
     exists v, DateTimeField_to_python value = Ok v /\ d' !! name self = Some v) /\
  (forall d value d' r d'',
     __set__ self d value = Ok d' ->
     __get__ default_tz self (Some d') = Ok (r, d'') ->
     exists v, DateTimeField_to_python value = Ok v /\
       (((forall dt, v ≠ PyDatetime dt) /\ r = v) \/
        (exists dt ctx cached,
           v = PyDatetime dt /\
           call_timezone (timezone self) d' = Ok ctx /\
           attach (resolve default_tz ctx) dt = Ok cached /\
           r = PyDatetime cached))) /\
  (forall l d,
     cache_consistent default_tz self d ->
     cache_consistent default_tz self (run default_tz self l d)).
Proof.
  assert (Hset : forall d value d',
     __set__ self d value = Ok d' ->
     d' !! cache_attname self = None /\
     exists v, DateTimeField_to_python value = Ok v /\ d' !! name self = Some v).
  { intros d value d' Hs. apply set_returns_inv in Hs as (v & Hv & ->).
    split; [apply lookup_delete_eq|]. exists v. split; [exact Hv|].
    rewrite lookup_delete_ne by apply cache_attname_ne. apply lookup_insert_eq. }
  split; [exact Hset|]. split.
  - intros d value d' r d'' Hs Hg.
    destruct (Hset _ _ _ Hs) as (Hnone & v & Hv & Hstored).
    exists v. split; [exact Hv|].
    apply get_returns_inv in Hg as [(Hc & _) | [(_ & Hr & Hnd & _) | Hfresh]].
    + congruence.
    + left. rewrite Hstored in Hr. injection Hr as <-. auto.
    + destruct Hfresh as (ctx & dt & cached & _ & Hctx & Hdt & Hat & -> & _).
      right. exists dt, ctx, cached. rewrite Hstored in Hdt. injection Hdt as ->. auto.
  - intros l. unfold run. induction l as [|a l IH]; intros d Hd; [exact Hd|].
    cbn. apply IH. now apply access_step_consistent.
Qed.

(** C4: a context that is, or that on this instance yields, a string
    that is no timezone identifier resolves to the default timezone, and
    the read returns: the cache entry if there is one, else the stored
    value, attached to the default timezone when it is a datetime.  A field
    constructed with such a string keeps it as its context. *)
Theorem unknown_identifier_resolves_to_default (s : string) :
  unknown_identifier s ->
  resolve default_tz (PyStr s) = PyTimezone default_tz /\
  (forall nm, LocalizedDateTimeField.__init__ nm (Some (Value (PyStr s)))
              = Ok {| name := nm; timezone := Value (PyStr s) |}) /\
  (forall self d stored,
     call_timezone (timezone self) d = Ok (PyStr s) ->
     d !! name self = Some stored ->
     exists v d',
       __get__ default_tz self (Some d) = Ok (v, d') /\
       (d !! cache_attname self = None ->
        match stored with
        | PyDatetime dt =>
            v = PyDatetime match dt_tzinfo dt with
                           | None => localize default_tz dt
                           | Some a => astimezone dt a default_tz
                           end
        | _ => v = stored
        end)).
Proof.
  intros [Hnotin Hnone]. split; [|split].
  - cbn. now rewrite Hnone.
  - intros nm. unfold LocalizedDateTimeField.__init__, smart_str. cbn.
    now rewrite decide_False by exact Hnotin.
  - intros self d stored Hctx Hstored.
    destruct (d !! cache_attname self) as [c|] eqn:Hc.
    { exists c, d. split; [now apply get_cached | discriminate]. }
    assert (Hres : resolve default_tz (PyStr s) = PyTimezone default_tz)
      by (cbn; now rewrite Hnone).
    destruct stored as [ | b | s' | dt | tz | tz ];
      try (eexists _, d; split;
           [ apply get_not_datetime with (ctx := PyStr s); (eassumption || discriminate)
           | intros _; reflexivity ]).
    eexists _, _. split; [|intros _; reflexivity].
    apply get_fresh with (ctx := PyStr s) (dt := dt); try assumption.
    rewrite Hres. unfold attach. destruct (dt_tzinfo dt); reflexivity.
Qed.

(** C10: a field constructed without a timezone argument has the
    context [None], which resolves to [None], not to the default timezone;
    a read of a stored datetime with an empty cache slot then raises:
    [AttributeError] from [None.localize] for a naive value, [TypeError]
    from [astimezone(None)] for an aware one. *)
Theorem default_context_read_raises (nm : string) :
  let self := {| name := nm; timezone := Value PyNone |} in
  LocalizedDateTimeField.__init__ nm None = Ok self /\
  resolve default_tz PyNone = PyNone /\
  (forall d dt,
     d !! name self = Some (PyDatetime dt) ->
     d !! cache_attname self = None ->
     __get__ default_tz self (Some d) =
       Raise match dt_tzinfo dt with
             | None => AttributeError
             | Some _ => TypeError
             end).
Proof.
  intros self. split; [reflexivity|]. split; [reflexivity|].
  intros d dt Hdt Hc. unfold __get__, getitem. rewrite Hc. cbn. cbn in Hdt.
  rewrite Hdt. cbn. unfold attach. destruct (dt_tzinfo dt); reflexivity.
Qed.

End Descriptor.


(** ** The fields *)

Section Fields.
Context {P : Pytz} {D : Django} (default_tz : tzinfo).

(** C5: a datetime handed to save preparation reaches the column
    serialization of [models.DateTimeField] in the default timezone,
    localized into it when naive (same wall clock) and converted into it
    when aware (same absolute instant). *)
Theorem save_converts_to_default_tz (dt : datetime) :
  exists dt',
    LocalizedDateTimeField.save_conversion default_tz (PyDatetime dt)
      = Ok (PyDatetime dt') /\
    LocalizedDateTimeField.get_db_prep_save default_tz (PyDatetime dt)
      = DateTimeField_get_db_prep_save (PyDatetime dt') /\
    att_tz <$> dt_tzinfo dt' = Some default_tz /\
    (naive dt -> dt' = localize default_tz dt /\ wall dt' = wall dt) /\
    (forall a, dt_tzinfo dt = Some a ->
       dt' = astimezone dt a default_tz /\ instant dt' = instant dt).
Proof.
  unfold LocalizedDateTimeField.get_db_prep_save,
    LocalizedDateTimeField.save_conversion, naive.
  cbn. destruct (dt_tzinfo dt) as [a|] eqn:Ha.
  - exists (astimezone dt a default_tz).
    split; [reflexivity|]. split; [reflexivity|]. split; [reflexivity|].
    split; [discriminate|]. intros a' [= <-].
    split; [reflexivity|]. now apply astimezone_keeps_instant.
  - exists (localize default_tz dt).
    split; [reflexivity|]. split; [reflexivity|]. split; [reflexivity|].
    split; [split; reflexivity | discriminate].
Qed.

(** Away from [None] the two conversions are the same function. *)
Lemma conversions_agree_off_None (value : pyval) :
  value ≠ PyNone ->
  LocalizedDateTimeField.lookup_conversion default_tz value
    = LocalizedDateTimeField.save_conversion default_tz value.
Proof. intros Hv. destruct value; (reflexivity || now destruct Hv). Qed.

(** C6: at [None] the two conversions differ.  Save preparation hands
    [None] on; lookup preparation reads [None.tzinfo] and raises
    [AttributeError], whatever the lookup type. *)
Theorem lookup_of_None_raises (lookup_type : string) :
  LocalizedDateTimeField.save_conversion default_tz PyNone = Ok PyNone /\
  LocalizedDateTimeField.get_db_prep_save default_tz PyNone
    = DateTimeField_get_db_prep_save PyNone /\
  LocalizedDateTimeField.lookup_conversion default_tz PyNone = Raise AttributeError /\
  LocalizedDateTimeField.get_db_prep_lookup default_tz lookup_type PyNone
    = Raise AttributeError.
Proof. repeat split. Qed.

(** C7: for an identifier [s] that names the timezone [tz], on a host
    whose [CharField] hands strings through unchanged and with
    [pytz.timezone(str(tz))] being [tz]: the assigned identifier is held as
    [tz], saved as the string [str(tz)], and read back as [tz]; saving the
    identifier itself and reading it back gives [tz] as well. *)
Theorem timezone_round_trip (s : string) (tz : tzinfo) :
  pytz_timezone s = Some tz ->
  pytz_timezone (zone tz) = Some tz ->
  (forall s', CharField_to_python (PyStr s') = Ok (PyStr s')) ->
  (forall s', CharField_get_db_prep_save (PyStr s') = Ok (PyStr s')) ->
  TimeZoneField.to_python (PyStr s) = Ok (PyTimezone tz) /\
  TimeZoneField.get_db_prep_save (PyTimezone tz) = Ok (PyStr (zone tz)) /\
  TimeZoneField.round_trip (PyStr s) = Ok (PyTimezone tz) /\
  (column ← TimeZoneField.get_db_prep_save (PyStr s); TimeZoneField.to_python column)
    = Ok (PyTimezone tz).
Proof.
  intros Hs Hzone Hto Hsave.
  assert (Hread : forall s', pytz_timezone s' = Some tz ->
            TimeZoneField.to_python (PyStr s') = Ok (PyTimezone tz)).
  { intros s' Hs'. unfold TimeZoneField.to_python, timezone_or_raise.
    rewrite Hto. cbn. now rewrite Hs'. }
  assert (Hwrite : TimeZoneField.get_db_prep_save (PyTimezone tz) = Ok (PyStr (zone tz))).
  { unfold TimeZoneField.get_db_prep_save. cbn. apply Hsave. }
  repeat split.
  - now apply Hread.
  - exact Hwrite.
  - unfold TimeZoneField.round_trip. rewrite (Hread s Hs). cbn.
    rewrite Hwrite. cbn. now apply Hread.
  - unfold TimeZoneField.get_db_prep_save. cbn. rewrite Hsave. cbn. now apply Hread.
Qed.

(** C8 as amended: [to_python] tests neither membership nor length
    itself; for a string that [CharField.to_python] hands through it is
    [pytz.timezone], so the read succeeds exactly on the identifiers pytz
    knows and raises pytz's [UnknownTimeZoneError] on every other string,
    whatever its length. *)
Theorem to_python_is_pytz_lookup (s : string) :
  CharField_to_python (PyStr s) = Ok (PyStr s) ->
  TimeZoneField.to_python (PyStr s) =
    match pytz_timezone s with
    | Some tz => Ok (PyTimezone tz)
    | None => Raise UnknownTimeZoneError
    end.
Proof.
  intros Hto. unfold TimeZoneField.to_python, timezone_or_raise. rewrite Hto. cbn.
  now destruct (pytz_timezone s).
Qed.

(** C9: the module-level assertion holds for every bound and every list
    of choices, since what it tests is a pair; importing the module can
    fail on the default timezone only. *)
Theorem module_assert_never_fails {C : Type}
    (len : C -> Z) (max_len : Z) (choices : list C) :
  module_assert len max_len choices = Ok tt /\
  (forall st,
     import_module st len choices =
       (tz ← default_tz_of st;
        Ok {| g_MAX_TIMEZONE_LENGTH := MAX_TIMEZONE_LENGTH st; g_default_tz := tz |})).
Proof.
  split; [reflexivity|]. intros st. unfold import_module.
  now destruct (default_tz_of st).
Qed.

End Fields.

(** ** More on the descriptor: what an access touches *)

Lemma append_cancel_r (s1 s2 t : string) : s1 +:+ t = s2 +:+ t -> s1 = s2.
Proof.
  revert s2. induction s1 as [|c s1 IH]; intros [|c2 s2] Heq.
  - reflexivity.
  - apply (f_equal String.length) in Heq.
    rewrite !length_append in Heq. cbn in Heq. lia.
  - apply (f_equal String.length) in Heq.
    rewrite !length_append in Heq. cbn in Heq. lia.
  - change (String c (s1 +:+ t) = String c2 (s2 +:+ t)) in Heq.
    injection Heq as -> Heq. f_equal. now apply IH.
Qed.

Section Footprint.
Context {P : Pytz} {D : Django} (default_tz : tzinfo).
Import LocalizedDateTimeFieldProperty.

Lemma cache_attname_inj (f g : field) :
  cache_attname f = cache_attname g -> name f = name g.
Proof.
  unfold cache_attname. intros Heq.
  simpl in Heq. injection Heq as Heq.
  apply (append_cancel_r (name f) (name g) "_cache"). exact Heq.
Qed.

Lemma get_frame (self : field) (d d' : instance) (v : pyval) (k : string) :
  __get__ default_tz self (Some d) = Ok (v, d') ->
  k ≠ cache_attname self ->
  d' !! k = d !! k.
Proof.
  intros Hget Hk.
  apply get_returns_inv in Hget as [(_ & ->) | [(_ & _ & _ & ->) | Hfresh]];
    try reflexivity.
  destruct Hfresh as (ctx & dt & r & _ & _ & _ & _ & _ & ->).
  now rewrite lookup_insert_ne.
Qed.

Lemma set_unfold (self : field) (d : instance) (value : pyval) :
  __set__ self d value =
    (v ← DateTimeField_to_python value;
     Ok (delete (cache_attname self) (<[name self := v]> d))).
Proof.
  unfold __set__. destruct (DateTimeField_to_python value) as [v|e]; cbn; [|reflexivity].
  destruct (<[name self := v]> d !! cache_attname self) eqn:Hc; [reflexivity|].
  now rewrite delete_id.
Qed.

Lemma set_frame (self : field) (d d' : instance) (value : pyval) (k : string) :
  __set__ self d value = Ok d' ->
  k ≠ name self -> k ≠ cache_attname self ->
  d' !! k = d !! k.
Proof.
  intros Hset Hn Hc. apply set_returns_inv in Hset as (v & _ & ->).
  rewrite lookup_delete_ne by congruence. now rewrite lookup_insert_ne by congruence.
Qed.

Lemma access_step_frame (self : field) (d : instance) (a : access) (k : string) :
  k ≠ name self -> k ≠ cache_attname self ->
  access_step default_tz self d a !! k = d !! k.
Proof.
  intros Hn Hc. destruct a as [|value]; unfold access_step.
  - destruct (__get__ default_tz self (Some d)) as [[v d']|e] eqn:Hget; [|reflexivity].
    now apply get_frame with self v.
  - destruct (__set__ self d value) as [d'|e] eqn:Hset; [|reflexivity].
    now apply set_frame with self value.
Qed.

Lemma run_frame (self : field) (l : list access) (d : instance) (k : string) :
  k ≠ name self -> k ≠ cache_attname self ->
  run default_tz self l d !! k = d !! k.
Proof.
  intros Hn Hc. revert d. unfold run.
  induction l as [|a l IH]; intros d; [reflexivity|].
  cbn. rewrite IH. now apply access_step_frame.
Qed.

Lemma read_keeps_stored (self : field) (d : instance) :
  access_step default_tz self d Read !! name self = d !! name self.
Proof.
  unfold access_step.
  destruct (__get__ default_tz self (Some d)) as [[v d']|e] eqn:Hget; [|reflexivity].
  apply get_frame with self v; [exact Hget|].
  intros Heq. now apply (cache_attname_ne self).
Qed.

(** X1: along every sequence of reads and writes on one field, every
    entry of the instance other than the field's stored value and its
    cache entry stays as it was; reads alone leave the stored value as it
    was too. *)
Theorem accesses_touch_two_slots (self : field) (l : list access) (d : instance) :
  (forall k, k ≠ name self -> k ≠ cache_attname self ->
     run default_tz self l d !! k = d !! k) /\
  (Forall (fun a => a = Read) l ->
     run default_tz self l d !! name self = d !! name self).
Proof.
  split; [intros k; apply run_frame|].
  revert d. unfold run. induction l as [|a l IH]; intros d Hall; [reflexivity|].
  inversion Hall as [|a' l' -> Hl]; subst. cbn.
  rewrite (IH _ Hl). apply read_keeps_stored.
Qed.

(** X2: two fields with different names have different cache slots, and
    unless one is named as the other's cache slot, reads and writes on one
    leave the other's stored value and cache entry as they were. *)
Theorem fields_do_not_interfere (f g : field) (l : list access) (d : instance) :
  name f ≠ name g ->
  name f ≠ cache_attname g ->
  name g ≠ cache_attname f ->
  cache_attname f ≠ cache_attname g /\
  run default_tz g l d !! name f = d !! name f /\
  run default_tz g l d !! cache_attname f = d !! cache_attname f.
Proof.
  intros Hfg Hfc Hgc.
  assert (Hcc : cache_attname f ≠ cache_attname g).
  { intros Heq. apply Hfg. now apply cache_attname_inj. }
  split; [exact Hcc|]. split.
  - now apply run_frame.
  - apply run_frame; [congruence | exact Hcc].
Qed.

(** X3: a read changes the instance at most once: after one read,
    further reads leave it as it is; and a read of a stored value that is
    no datetime, with no cache entry, changes nothing at all. *)
Theorem reads_settle (self : field) (d : instance) :
  (forall n, run default_tz self (replicate (S n) Read) d
             = access_step default_tz self d Read) /\
  (forall v, d !! cache_attname self = None ->
             d !! name self = Some v ->
             (forall dt, v ≠ PyDatetime dt) ->
             access_step default_tz self d Read = d).
Proof.
  assert (Hidem : forall d0,
    access_step default_tz self (access_step default_tz self d0 Read) Read
      = access_step default_tz self d0 Read).
  { intros d0. unfold access_step at 2 3.
    destruct (__get__ default_tz self (Some d0)) as [[v d']|e] eqn:Hget.
    - apply get_returns_inv in Hget as Hinv.
      destruct Hinv as [(_ & ->) | [(_ & _ & _ & ->) | Hfresh]].
      + unfold access_step. now rewrite Hget.
      + unfold access_step. now rewrite Hget.
      + destruct Hfresh as (ctx & dt & r & _ & _ & _ & _ & -> & ->).
        unfold access_step.
        rewrite (get_cached default_tz self _ (PyDatetime r)); [reflexivity|].
        apply lookup_insert_eq.
    - unfold access_step. now rewrite Hget. }
  split.
  - intros n. unfold run. induction n as [|n IH].
    + reflexivity.
    + change (replicate (S (S n)) Read) with (Read :: replicate (S n) Read).
      cbn [fold_left]. change (fold_left (access_step default_tz self)
        (replicate (S n) Read) (access_step default_tz self d Read))
        with (fold_left (access_step default_tz self) (replicate n Read)
                (access_step default_tz self (access_step default_tz self d Read) Read)).
      rewrite Hidem. exact IH.
  - intros v Hc Hv Hnd. unfold access_step.
    destruct (__get__ default_tz self (Some d)) as [[w d']|e] eqn:Hget; [|reflexivity].
    apply get_returns_inv in Hget as [(_ & ->) | [(_ & _ & _ & ->) | Hfresh]];
      try reflexivity.
    destruct Hfresh as (ctx & dt & r & _ & _ & Hdt & _).
    rewrite Hv in Hdt. injection Hdt as ->. now destruct (Hnd dt).
Qed.

(** X4: a write overrides the write before it: after a write that
    returned, a second write gives what it would have given without the
    first, be it an instance or an exception. *)
Theorem last_write_wins (self : field) (d d1 : instance) (v1 v2 : pyval) :
  __set__ self d v1 = Ok d1 ->
  __set__ self d1 v2 = __set__ self d v2.
Proof.
  intros H1. apply set_returns_inv in H1 as (w1 & _ & ->).
  rewrite !set_unfold. destruct (DateTimeField_to_python v2) as [w2|e]; [|reflexivity].
  cbn. f_equal. apply map_eq. intros k.
  destruct (decide (k = cache_attname self)) as [->|Hc].
  - now rewrite !lookup_delete_eq.
  - rewrite !lookup_delete_ne by congruence.
    destruct (decide (k = name self)) as [->|Hn].
    + now rewrite !lookup_insert_eq.
    + rewrite !lookup_insert_ne by congruence.
      rewrite lookup_delete_ne by congruence. now rewrite lookup_insert_ne by congruence.
Qed.

(** X5: when a read returns.  It returns exactly when there is a cache
    entry, or when the context can be called, the stored value is present
    and, if it is a datetime, the resolved context can be attached to it: a
    pytz timezone to a naive value, any tzinfo to an aware one.  With no
    cache entry and no stored value a read whose context can be called
    raises [KeyError]; a read through the class ([obj] is [None]) raises
    [AttributeError]. *)
Theorem get_returns_iff (self : field) (d : instance) :
  ((exists v d', __get__ default_tz self (Some d) = Ok (v, d')) <->
   (is_Some (d !! cache_attname self) \/
    exists ctx stored,
      call_timezone (timezone self) d = Ok ctx /\
      d !! name self = Some stored /\
      forall dt, stored = PyDatetime dt ->
        match dt_tzinfo dt, resolve default_tz ctx with
        | None, PyTimezone _ => True
        | Some _, (PyTimezone _ | PyTzinfo _) => True
        | _, _ => False
        end)) /\
  (forall ctx,
     d !! cache_attname self = None ->
     d !! name self = None ->
     call_timezone (timezone self) d = Ok ctx ->
     __get__ default_tz self (Some d) = Raise KeyError) /\
  __get__ default_tz self None = Raise AttributeError.
Proof.
  split; [|split; [|reflexivity]].
  - split.
    + intros (v & d' & Hget).
      apply get_returns_inv in Hget as Hinv.
      destruct Hinv as [(Hc & _) | [(Hc & Hv & Hnd & _) | Hfresh]].
      * left. eauto.
      * right. revert Hget. unfold __get__, getitem. rewrite Hc.
        destruct (call_timezone (timezone self) d) as [ctx|e]; cbn; [|discriminate].
        intros _. exists ctx, v. split; [reflexivity|]. split; [exact Hv|].
        intros dt ->. now destruct (Hnd dt).
      * destruct Hfresh as (ctx & dt & r & _ & Hctx & Hdt & Hr & _).
        right. exists ctx, (PyDatetime dt). split; [exact Hctx|]. split; [exact Hdt|].
        intros dt' [= <-]. revert Hr. unfold attach, tzinfo_localize, dt_astimezone.
        destruct (dt_tzinfo dt), (resolve default_tz ctx); (exact (fun _ => I) || discriminate).
    + intros [[c Hc] | (ctx & stored & Hctx & Hst & Hok)].
      * exists c, d. now apply get_cached.
      * destruct (d !! cache_attname self) as [c|] eqn:Hc.
        { exists c, d. now apply get_cached. }
        destruct stored as [ | b | s | dt | tz | tz ];
          try (eexists _, d; apply get_not_datetime with (ctx := ctx);
               (eassumption || discriminate)).
        specialize (Hok dt eq_refl).
        assert (Hr : exists r, attach (resolve default_tz ctx) dt = Ok r).
        { unfold attach, tzinfo_localize, dt_astimezone.
          destruct (dt_tzinfo dt), (resolve default_tz ctx);
            (now destruct Hok) || eauto. }
        destruct Hr as (r & Hr). eexists _, _.
        now apply get_fresh with (ctx := ctx) (dt := dt) (r := r).
  - intros ctx Hc Hn Hctx. unfold __get__, getitem. rewrite Hc, Hctx. cbn.
    now rewrite Hn.
Qed.

(** X6: reading and then saving.  The value a read returns for a stored
    datetime, handed to save preparation, reaches the column serialization
    in the default timezone at the same instant.  For a naive stored value
    the saved wall clock is the stored one moved by the two offsets, and it
    is the stored wall clock exactly when the field's timezone and the
    default timezone have the same offset there. *)
Theorem read_then_save
    (self : field) (d : instance) (dt : datetime) (ctx : pyval) (tz : tzinfo) :
  d !! name self = Some (PyDatetime dt) ->
  d !! cache_attname self = None ->
  call_timezone (timezone self) d = Ok ctx ->
  resolve default_tz ctx = PyTimezone tz ->
  exists r d' s,
    __get__ default_tz self (Some d) = Ok (PyDatetime r, d') /\
    LocalizedDateTimeField.get_db_prep_save default_tz (PyDatetime r)
      = DateTimeField_get_db_prep_save (PyDatetime s) /\
    instant s = instant r /\
    att_tz <$> dt_tzinfo s = Some default_tz /\
    (naive dt ->
       let utc := wall dt - utcoffset_local tz (wall dt) in
       wall s = utc + utcoffset_utc default_tz utc /\
       (wall s = wall dt <->
        utcoffset_utc default_tz utc = utcoffset_local tz (wall dt))).
Proof.
  intros Hdt Hc Hctx Htz.
  set (r := match dt_tzinfo dt with
            | None => localize tz dt
            | Some a => astimezone dt a tz
            end).
  assert (Hr : attach (resolve default_tz ctx) dt = Ok r).
  { rewrite Htz. unfold attach, r. now destruct (dt_tzinfo dt). }
  assert (Haware : exists a, dt_tzinfo r = Some a).
  { unfold r. destruct (dt_tzinfo dt); cbn; eauto. }
  destruct Haware as (a & Ha).
  exists r, (<[cache_attname self := PyDatetime r]> d), (astimezone r a default_tz).
  split; [now apply get_fresh with (ctx := ctx) (dt := dt)|].
  split.
  { unfold LocalizedDateTimeField.get_db_prep_save,
      LocalizedDateTimeField.save_conversion. cbn. now rewrite Ha. }
  split; [now apply astimezone_keeps_instant|].
  split; [reflexivity|].
  unfold naive. intros Hn. revert Ha. unfold r. rewrite Hn. cbn.
  intros [= <-]. cbn. split; [reflexivity | lia].
Qed.

End Footprint.

(** ** More on the fields *)

Lemma reduce_and {C : Type} (p : C -> bool) (l : list C) (a : bool) :
  reduce (fun x y => x && p y) l a = a && forallb p l.
Proof.
  unfold reduce. revert a. induction l as [|c l IH]; intros a; cbn.
  - now rewrite andb_true_r.
  - rewrite IH. now rewrite andb_assoc.
Qed.

(** X7: the expression inside the module-level assertion does compute
    the check it was written for: it is true exactly when every choice is
    at most [MAX_TIMEZONE_LENGTH] long. *)
Theorem choices_fit_iff {C : Type} (len : C -> Z) (max_len : Z) (choices : list C) :
  choices_fit len max_len choices = true <->
  Forall (fun c => len c <= max_len) choices.
Proof.
  unfold choices_fit. rewrite reduce_and. cbn.
  rewrite forallb_forall, Forall_forall.
  split; intros H c Hin.
  - apply Z.leb_le, H. now apply list_elem_of_In.
  - apply Z.leb_le, H. now apply list_elem_of_In.
Qed.

Section MoreFields.
Context {P : Pytz} {D : Django} {F : Forms} (default_tz : tzinfo).
Import LocalizedDateTimeFieldProperty.

(** X8: save preparation settles.  Converting a converted value again
    changes nothing: always for [None] and for an aware datetime, and for a
    naive one when the default timezone's offset at the resulting instant
    is the offset it has at that wall clock. *)
Theorem save_conversion_settles (value v1 : pyval) :
  LocalizedDateTimeField.save_conversion default_tz value = Ok v1 ->
  (forall dt, value = PyDatetime dt -> naive dt ->
     utcoffset_utc default_tz (wall dt - utcoffset_local default_tz (wall dt))
       = utcoffset_local default_tz (wall dt)) ->
  LocalizedDateTimeField.save_conversion default_tz v1 = Ok v1.
Proof.
  unfold LocalizedDateTimeField.save_conversion, naive.
  destruct value as [ | b | s | dt | tz | tz ]; cbn; try discriminate.
  - now intros [= <-] _.
  - destruct (dt_tzinfo dt) as [a|] eqn:Ha; intros [= <-] Hoff; cbn.
    + unfold astimezone. cbn.
      replace (wall dt - att_offset a
               + utcoffset_utc default_tz (wall dt - att_offset a)
               - utcoffset_utc default_tz (wall dt - att_offset a))
        with (wall dt - att_offset a) by lia.
      reflexivity.
    + specialize (Hoff dt eq_refl Ha).
      unfold astimezone, localize. cbn. rewrite Hoff.
      replace (wall dt - utcoffset_local default_tz (wall dt)
               + utcoffset_local default_tz (wall dt)) with (wall dt) by lia.
      reflexivity.
Qed.

(** X9: lookup preparation accepts datetimes only.  A datetime is
    converted as save preparation converts it and handed to
    [DateTimeField.get_db_prep_lookup]; any other value ([None], the
    [True] of an [isnull] lookup, a string) raises [AttributeError] before
    the parent class is reached. *)
Theorem lookup_prepares_datetimes_only (lookup_type : string) (value : pyval) :
  match value with
  | PyDatetime dt =>
      exists dt',
        LocalizedDateTimeField.save_conversion default_tz value = Ok (PyDatetime dt') /\
        LocalizedDateTimeField.get_db_prep_lookup default_tz lookup_type value
          = DateTimeField_get_db_prep_lookup lookup_type (PyDatetime dt')
  | _ =>
      LocalizedDateTimeField.get_db_prep_lookup default_tz lookup_type value
        = Raise AttributeError
  end.
Proof.
  destruct value as [ | b | s | dt | tz | tz ]; try reflexivity.
  unfold LocalizedDateTimeField.get_db_prep_lookup,
    LocalizedDateTimeField.lookup_conversion,
    LocalizedDateTimeField.save_conversion. cbn.
  destruct (dt_tzinfo dt); eexists; split; reflexivity.
Qed.

(** X10: the timezone a string context stands for.  A field constructed
    with a string never keeps a string that is in
    [pytz.all_timezones_set]; and whether the string was looked up at
    construction or is looked up at the read, the timezone the read uses
    is [pytz.timezone] of the string when pytz knows it and the default
    timezone otherwise. *)
Theorem string_context_timezone (nm s : string) (f : field) :
  LocalizedDateTimeField.__init__ nm (Some (Value (PyStr s))) = Ok f ->
  name f = nm /\
  (forall s', timezone f = Value (PyStr s') -> s' ∉ all_timezones_set) /\
  (forall d, exists ctx,
     call_timezone (timezone f) d = Ok ctx /\
     resolve default_tz ctx =
       PyTimezone match pytz_timezone s with
                  | Some tz => tz
                  | None => default_tz
                  end).
Proof.
  unfold LocalizedDateTimeField.__init__, smart_str, timezone_or_raise. cbn.
  destruct (decide (s ∈ all_timezones_set)) as [Hin|Hout].
  - destruct (pytz_timezone s) as [tz|] eqn:Hs; cbn; [|discriminate].
    intros [= <-]. cbn. split; [reflexivity|]. split; [discriminate|].
    intros d. exists (PyTimezone tz). split; reflexivity.
  - intros [= <-]. cbn. split; [reflexivity|]. split.
    + now intros s' [= <-].
    + intros d. exists (PyStr s). split; [reflexivity|]. cbn.
      now destruct (pytz_timezone s).
Qed.

(** X11: [to_python] of a TimeZoneField accepts its own results.  On a
    host whose [CharField.to_python] hands strings and [None] through and
    turns a timezone into its name, and with [pytz.timezone(str(tz))] being
    [tz] for the timezones pytz returns, a value that [to_python] returned
    is returned unchanged when it is assigned again. *)
Theorem to_python_idempotent (value held : pyval) :
  (forall s, CharField_to_python (PyStr s) = Ok (PyStr s)) ->
  CharField_to_python PyNone = Ok PyNone ->
  (forall tz, CharField_to_python (PyTimezone tz) = Ok (PyStr (zone tz))) ->
  (forall s tz, pytz_timezone s = Some tz -> pytz_timezone (zone tz) = Some tz) ->
  TimeZoneField.to_python value = Ok held ->
  TimeZoneField.to_python held = Ok held.
Proof.
  intros Hstr Hnone Htz Hzone. unfold TimeZoneField.to_python at 1.
  destruct (CharField_to_python value) as [w|e]; cbn; [|discriminate].
  destruct w as [ | b | s | dt | tz | tz ]; try discriminate.
  - intros [= <-]. unfold TimeZoneField.to_python. now rewrite Hnone.
  - unfold timezone_or_raise. destruct (pytz_timezone s) as [tz|] eqn:Hs; cbn; [|discriminate].
    intros [= <-]. unfold TimeZoneField.to_python, timezone_or_raise.
    rewrite Htz. cbn. now rewrite (Hzone s tz Hs).
Qed.

(** X12: [flatten_data] gives one entry, under the field's attribute
    name, whose text is the timezone's name, the string itself, or the
    empty string for [None].  The name of a timezone reads back through
    [to_python] as that timezone; the empty string that stands for [None]
    does not read back as [None]: with pytz knowing no timezone of that
    name, [to_python] raises [UnknownTimeZoneError] on it. *)
Theorem flatten_data_text
    (attname : string) (follow : pyval) (obj : option instance) (held : pyval) :
  _get_val_from_obj obj = Ok held ->
  (forall s, CharField_to_python (PyStr s) = Ok (PyStr s)) ->
  exists text,
    TimeZoneField.flatten_data attname follow obj = Ok {[ attname := text ]} /\
    (forall tz, held = PyTimezone tz ->
       text = zone tz /\
       (pytz_timezone (zone tz) = Some tz ->
        TimeZoneField.to_python (PyStr text) = Ok held)) /\
    (forall s, held = PyStr s -> text = s) /\
    (held = PyNone ->
       text = ""%string /\
       (pytz_timezone "" = None ->
        TimeZoneField.to_python (PyStr text) = Raise UnknownTimeZoneError)).
Proof.
  intros Hval Hstr. unfold TimeZoneField.flatten_data. rewrite Hval. cbn.
  eexists. split; [reflexivity|].
  split; [|split].
  - intros tz ->. split; [reflexivity|]. intros Hz. cbn.
    unfold TimeZoneField.to_python, timezone_or_raise. rewrite Hstr. cbn. now rewrite Hz.
  - now intros s ->.
  - intros ->. split; [reflexivity|]. intros Hz. cbn.
    unfold TimeZoneField.to_python, timezone_or_raise. rewrite Hstr. cbn. now rewrite Hz.
Qed.

Section Formfield.
Context (callable_str : callable -> string).

(** X13: the keyword arguments of the form fields.  Both [formfield]
    methods hand the caller's keyword arguments on unchanged and add
    [form_class] when the caller gave none.  A LocalizedDateTimeField adds
    [timezone], when the caller gave none, only for a context that is no
    string and whose [str()] is in [pytz.all_timezones_set]; no other key
    is added. *)
Theorem formfield_keywords (self : field) (kwargs : gmap string kwarg) :
  let tzf := TimeZoneField.formfield_defaults kwargs in
  let ldf := LocalizedDateTimeField.formfield_defaults callable_str self kwargs in
  (forall k v, kwargs !! k = Some v -> tzf !! k = Some v /\ ldf !! k = Some v) /\
  (kwargs !! "form_class"%string = None ->
     tzf !! "form_class"%string = Some (FormClass "forms.TimeZoneField") /\
     ldf !! "form_class"%string = Some (FormClass "forms.LocalizedDateTimeField")) /\
  (kwargs !! "timezone"%string = None ->
     ldf !! "timezone"%string =
       if negb (LocalizedDateTimeField.is_basestring (timezone self))
          && bool_decide (LocalizedDateTimeField.str callable_str (timezone self)
                            ∈ all_timezones_set)
       then Some (KwValue (PyStr (LocalizedDateTimeField.str callable_str (timezone self))))
       else None) /\
  (forall k, k ≠ "form_class"%string ->
     tzf !! k = kwargs !! k /\
     (k ≠ "timezone"%string -> ldf !! k = kwargs !! k)).
Proof.
  intros tzf ldf. unfold tzf, ldf, TimeZoneField.formfield_defaults,
    LocalizedDateTimeField.formfield_defaults, update.
  set (cond := negb (LocalizedDateTimeField.is_basestring (timezone self))
               && bool_decide (LocalizedDateTimeField.str callable_str (timezone self)
                                 ∈ all_timezones_set)).
  repeat split.
  - now apply lookup_union_Some_l.
  - now apply lookup_union_Some_l.
  - rewrite lookup_union_r by assumption. apply lookup_singleton_eq.
  - rewrite lookup_union_r by assumption. destruct cond.
    + rewrite lookup_insert_ne by discriminate. apply lookup_singleton_eq.
    + apply lookup_singleton_eq.
  - intros Hk. rewrite lookup_union_r by assumption. destruct cond.
    + apply lookup_insert_eq.
    + now rewrite lookup_singleton_ne by discriminate.
  - destruct (kwargs !! k) as [v|] eqn:Hv.
    + now apply lookup_union_Some_l.
    + rewrite lookup_union_r by assumption. now rewrite lookup_singleton_ne by congruence.
  - intros Hk. destruct (kwargs !! k) as [v|] eqn:Hv.
    + now apply lookup_union_Some_l.
    + rewrite lookup_union_r by assumption. destruct cond.
      * rewrite lookup_insert_ne by congruence.
        now rewrite lookup_singleton_ne by congruence.
      * now rewrite lookup_singleton_ne by congruence.
Qed.

(** X14: the form field of a field constructed with a string.  With no
    [timezone] from the caller it is given the name of the timezone the
    string was resolved to at construction, when that name is in
    [pytz.all_timezones_set]; for a string outside the set it is given no
    timezone, the string itself and the default timezone included. *)
Theorem formfield_of_string_context
    (nm s : string) (f : field) (kwargs : gmap string kwarg) :
  LocalizedDateTimeField.__init__ nm (Some (Value (PyStr s))) = Ok f ->
  kwargs !! "timezone"%string = None ->
  LocalizedDateTimeField.formfield callable_str f kwargs
    = DateTimeField_formfield
        (LocalizedDateTimeField.formfield_defaults callable_str f kwargs) /\
  LocalizedDateTimeField.formfield_defaults callable_str f kwargs !! "timezone"%string =
    match pytz_timezone s with
    | Some tz =>
        if decide (s ∈ all_timezones_set /\ zone tz ∈ all_timezones_set)
        then Some (KwValue (PyStr (zone tz)))
        else None
    | None => None
    end.
Proof.
  intros Hinit Hk. split; [reflexivity|].
  unfold LocalizedDateTimeField.formfield_defaults, update.
  rewrite lookup_union_r by assumption.
  revert Hinit. unfold LocalizedDateTimeField.__init__, smart_str, timezone_or_raise. cbn.
  destruct (decide (s ∈ all_timezones_set)) as [Hin|Hout].
  - destruct (pytz_timezone s) as [tz|] eqn:Hs; cbn; [|discriminate].
    intros [= <-]. cbn.
    destruct (decide (zone tz ∈ all_timezones_set)) as [Hz|Hz].
    + rewrite bool_decide_true by exact Hz.
      rewrite decide_True by (split; assumption). apply lookup_insert_eq.
    + rewrite bool_decide_false by exact Hz.
      rewrite decide_False by (intros [_ ?]; contradiction).
      now rewrite lookup_singleton_ne by discriminate.
  - intros [= <-]. cbn.
    rewrite lookup_singleton_ne by discriminate.
    destruct (pytz_timezone s); [|reflexivity].
    now rewrite decide_False by (intros [? _]; contradiction).
Qed.

End Formfield.

(** X15: a callable context.  The descriptor calls it with the model
    instance exactly when it is a function of one parameter, a bound method
    whose function has two, or a callable object whose [__call__] code has
    one; otherwise it calls it with no argument.  When the call returns,
    the read is the read of a field whose context is the returned value;
    when it raises and there is no cache entry, the read raises the same
    exception. *)
Theorem callable_context_read (nm : string) (c : callable) (d : instance) :
  let self := {| name := nm; timezone := Callable c |} in
  (argcount c = 1 <->
   code c = func_code 1 \/ code c = im_func 2 \/ code c = call_method 1) /\
  match (if argcount c =? 1 then call1 c d else call0 c) with
  | Ok v =>
      __get__ default_tz self (Some d)
        = __get__ default_tz {| name := nm; timezone := Value v |} (Some d)
  | Raise e =>
      d !! cache_attname self = None ->
      __get__ default_tz self (Some d) = Raise e
  end.
Proof.
  intros self. split.
  - unfold argcount. destruct (code c) as [n|n|n]; split.
    + intros ->. now left.
    + intros [[= ->] | [[=] | [=]]]. reflexivity.
    + intros Hn. right; left. f_equal. lia.
    + intros [[=] | [[= ->] | [=]]]. reflexivity.
    + intros ->. now right; right.
    + intros [[=] | [[=] | [= ->]]]. reflexivity.
  - unfold __get__, self, cache_attname. cbn.
    destruct (if argcount c =? 1 then call1 c d else call0 c) as [v|e].
    + reflexivity.
    + now intros ->.
Qed.

(** X16: what a TimeZoneField holds survives write then read.  On a host
    whose [CharField] hands strings and [None] through and turns a timezone
    into its name, [None] is saved as [None], not as text, and read back as
    [None]; a timezone that pytz returns for its own name is saved as that
    name and read back as the same timezone. *)
Theorem held_value_round_trip (held : pyval) :
  (forall s, CharField_to_python (PyStr s) = Ok (PyStr s)) ->
  CharField_to_python PyNone = Ok PyNone ->
  (forall tz, CharField_to_python (PyTimezone tz) = Ok (PyStr (zone tz))) ->
  (forall v, v = PyNone \/ (exists s, v = PyStr s) ->
     CharField_get_db_prep_save v = Ok v) ->
  held = PyNone \/
    (exists tz, held = PyTimezone tz /\ pytz_timezone (zone tz) = Some tz) ->
  TimeZoneField.round_trip held = Ok held /\
  TimeZoneField.get_db_prep_save held =
    Ok match held with
       | PyTimezone tz => PyStr (zone tz)
       | _ => PyNone
       end.
Proof.
  intros Hstr Hnone Htz Hsave [-> | (tz & -> & Hz)].
  - assert (Hs : TimeZoneField.get_db_prep_save PyNone = Ok PyNone).
    { unfold TimeZoneField.get_db_prep_save. apply Hsave. now left. }
    split; [|exact Hs].
    unfold TimeZoneField.round_trip, TimeZoneField.to_python.
    rewrite Hnone. cbn. rewrite Hs. cbn. now rewrite Hnone.
  - assert (Hs : TimeZoneField.get_db_prep_save (PyTimezone tz) = Ok (PyStr (zone tz))).
    { unfold TimeZoneField.get_db_prep_save. cbn. apply Hsave. right. eauto. }
    assert (Hr : TimeZoneField.to_python (PyStr (zone tz)) = Ok (PyTimezone tz)).
    { unfold TimeZoneField.to_python, timezone_or_raise. rewrite Hstr. cbn. now rewrite Hz. }
    split; [|exact Hs].
    unfold TimeZoneField.round_trip.
    assert (Ha : TimeZoneField.to_python (PyTimezone tz) = Ok (PyTimezone tz)).
    { unfold TimeZoneField.to_python, timezone_or_raise. rewrite Htz. cbn. now rewrite Hz. }
    rewrite Ha. cbn. rewrite Hs. cbn. exact Hr.
Qed.

End MoreFields.

(** ** The properties on the sample database *)

#[local] Existing Instances Sample.pytz Sample.django.
Import LocalizedDateTimeFieldProperty.

(** The scenarios of the specification: a field in America/New_York
    reads naive 2023-06-01 12:00:00 as 12:00:00-04:00, which is saved as
    16:00:00+00:00; a field whose context reads the instance's [timezone]
    attribute, here Asia/Tokyo, reads naive 2023-01-01 00:00:00 as
    00:00:00+09:00. *)
Example read_noon_in_new_york :
  __get__ Sample.utc Sample.when (Some Sample.stored_noon)
    = Ok (PyDatetime Sample.noon_ny, Sample.cached_noon) /\
  wall Sample.noon_ny = 1685620800 /\
  att_offset <$> dt_tzinfo Sample.noon_ny = Some (-14400).
Proof. repeat split. Qed.

Example save_noon_in_new_york :
  LocalizedDateTimeField.get_db_prep_save Sample.utc (PyDatetime Sample.noon_ny)
    = Ok (PyDatetime
            {| wall := 1685635200;
               dt_tzinfo := Some {| att_tz := Sample.utc; att_offset := 0 |} |}).
Proof. reflexivity. Qed.

Example read_new_year_in_tokyo :
  let self := {| name := "when"; timezone := Callable Sample.timezone_of_instance |} in
  let d : instance :=
    {[ "when"%string := PyDatetime Sample.new_year;
       "timezone"%string := PyStr "Asia/Tokyo" ]} in
  exists d',
    __get__ Sample.utc self (Some d)
      = Ok (PyDatetime
              {| wall := 1672531200;
                 dt_tzinfo := Some {| att_tz := Sample.tokyo; att_offset := 32400 |} |},
            d').
Proof. eexists. reflexivity. Qed.

(** A bound of 5 is shorter than the identifier "Asia/Tokyo"; the check
    the assertion was written for is false, and the assertion passes. *)
Example assert_passes_when_too_small :
  choices_fit (fun s => Z.of_nat (String.length s)) 5 (zone <$> Sample.zones) = false /\
  module_assert (fun s => Z.of_nat (String.length s)) 5 (zone <$> Sample.zones) = Ok tt.
Proof. split; reflexivity. Qed.

(** C1 as stated fails: a field constructed without a timezone argument
    has the context [None]; on an instance that holds a naive datetime and
    no cache entry the read returns nothing, it raises [AttributeError]. *)
Lemma read_under_default_context_raises :
  let self := {| name := "when"; timezone := Value PyNone |} in
  LocalizedDateTimeField.__init__ "when" None = Ok self /\
  Sample.stored_noon !! name self = Some (PyDatetime Sample.noon) /\
  Sample.stored_noon !! cache_attname self = None /\
  __get__ Sample.utc self (Some Sample.stored_noon) = Raise AttributeError /\
  ~ (exists v d', __get__ Sample.utc self (Some Sample.stored_noon) = Ok (v, d')).
Proof.
  intros self. repeat split. intros (v & d' & H). discriminate H.
Qed.

Lemma get_attaches_timezone_of_context_witness :
  let self := {| name := "when"; timezone := Callable Sample.timezone_of_instance |} in
  let d : instance :=
    {[ "when"%string := PyDatetime Sample.new_year;
       "timezone"%string := PyStr "Asia/Tokyo" ]} in
  d !! name self = Some (PyDatetime Sample.new_year) /\
  d !! cache_attname self = None /\
  call_timezone (timezone self) d = Ok (PyStr "Asia/Tokyo") /\
  pytz_timezone "Asia/Tokyo" = Some Sample.tokyo /\
  exists r d',
    __get__ Sample.utc self (Some d) = Ok (PyDatetime r, d') /\
    r = localize Sample.tokyo Sample.new_year /\
    wall r = wall Sample.new_year.
Proof.
  intros self d.
  assert (H1 : d !! name self = Some (PyDatetime Sample.new_year)) by reflexivity.
  assert (H2 : d !! cache_attname self = None) by reflexivity.
  assert (H3 : call_timezone (timezone self) d = Ok (PyStr "Asia/Tokyo")) by reflexivity.
  assert (H4 : pytz_timezone "Asia/Tokyo" = Some Sample.tokyo) by reflexivity.
  repeat (split; [assumption|]).
  destruct (get_attaches_timezone_of_context Sample.utc self d Sample.new_year
              (PyStr "Asia/Tokyo") Sample.tokyo H1 H2 H3
              (or_intror (or_introl (ex_intro _ "Asia/Tokyo"%string (conj eq_refl H4)))))
    as (r & d' & Hget & _ & _ & _ & Hnaive & _).
  exists r, d'. split; [exact Hget|].
  destruct (Hnaive eq_refl) as (Hr & Hwall & _). split; assumption.
Defined.

Lemma get_twice_same_object_witness :
  Sample.stored_noon !! name Sample.when = Some (PyDatetime Sample.noon) /\
  __get__ Sample.utc Sample.when (Some Sample.stored_noon)
    = Ok (PyDatetime Sample.noon_ny, Sample.cached_noon) /\
  __get__ Sample.utc Sample.when (Some Sample.cached_noon)
    = Ok (PyDatetime Sample.noon_ny, Sample.cached_noon).
Proof.
  assert (H1 : Sample.stored_noon !! name Sample.when = Some (PyDatetime Sample.noon))
    by reflexivity.
  assert (H2 : __get__ Sample.utc Sample.when (Some Sample.stored_noon)
                 = Ok (PyDatetime Sample.noon_ny, Sample.cached_noon)) by reflexivity.
  split; [exact H1|]. split; [exact H2|].
  exact (proj1 (proj2 (get_twice_same_object Sample.utc Sample.when Sample.stored_noon
                         Sample.cached_noon Sample.noon (PyDatetime Sample.noon_ny)
                         H1 H2))).
Defined.

Lemma write_clears_cache_witness :
  let l := [Read; Write (PyDatetime Sample.new_year); Read] in
  cache_consistent Sample.utc Sample.when Sample.stored_noon /\
  cache_consistent Sample.utc Sample.when
    (run Sample.utc Sample.when l Sample.stored_noon) /\
  run Sample.utc Sample.when l Sample.stored_noon !! cache_attname Sample.when
    = Some (PyDatetime (localize Sample.new_york Sample.new_year)).
Proof.
  intros l.
  assert (H0 : cache_consistent Sample.utc Sample.when Sample.stored_noon).
  { intros c Hc. vm_compute in Hc. discriminate Hc. }
  split; [exact H0|]. split; [|reflexivity].
  exact (proj2 (proj2 (write_clears_cache Sample.utc Sample.when)) l _ H0).
Defined.

Lemma unknown_identifier_resolves_to_default_witness :
  unknown_identifier Sample.olympus /\
  LocalizedDateTimeField.__init__ "when" (Some (Value (PyStr Sample.olympus)))
    = Ok {| name := "when"; timezone := Value (PyStr Sample.olympus) |} /\
  resolve Sample.utc (PyStr Sample.olympus) = PyTimezone Sample.utc.
Proof.
  assert (H0 : unknown_identifier Sample.olympus).
  { split; [|reflexivity]. intros Hin. vm_compute in Hin. discriminate Hin. }
  split; [exact H0|].
  destruct (unknown_identifier_resolves_to_default Sample.utc Sample.olympus H0)
    as (Hres & Hinit & _).
  split; [apply Hinit | exact Hres].
Defined.

Lemma default_context_read_raises_witness :
  let self := {| name := "when"; timezone := Value PyNone |} in
  Sample.stored_noon !! name self = Some (PyDatetime Sample.noon) /\
  Sample.stored_noon !! cache_attname self = None /\
  __get__ Sample.utc self (Some Sample.stored_noon) = Raise AttributeError.
Proof.
  intros self.
  assert (H1 : Sample.stored_noon !! name self = Some (PyDatetime Sample.noon))
    by reflexivity.
  assert (H2 : Sample.stored_noon !! cache_attname self = None) by reflexivity.
  split; [exact H1|]. split; [exact H2|].
  exact (proj2 (proj2 (default_context_read_raises Sample.utc "when"))
           Sample.stored_noon Sample.noon H1 H2).
Defined.

Lemma save_converts_to_default_tz_witness :
  exists dt',
    LocalizedDateTimeField.save_conversion Sample.utc (PyDatetime Sample.noon_ny)
      = Ok (PyDatetime dt') /\
    wall dt' = 1685635200 /\
    instant dt' = instant Sample.noon_ny.
Proof.
  destruct (save_converts_to_default_tz Sample.utc Sample.noon_ny)
    as (dt' & Hconv & _ & _ & _ & Haware).
  exists dt'. split; [exact Hconv|].
  destruct (Haware _ eq_refl) as (-> & Hinst). split; [reflexivity | exact Hinst].
Defined.

Lemma timezone_round_trip_witness :
  pytz_timezone "Asia/Tokyo" = Some Sample.tokyo /\
  pytz_timezone (zone Sample.tokyo) = Some Sample.tokyo /\
  (forall s', CharField_to_python (PyStr s') = Ok (PyStr s')) /\
  (forall s', CharField_get_db_prep_save (PyStr s') = Ok (PyStr s')) /\
  TimeZoneField.round_trip (PyStr "Asia/Tokyo") = Ok (PyTimezone Sample.tokyo).
Proof.
  assert (H1 : pytz_timezone "Asia/Tokyo" = Some Sample.tokyo) by reflexivity.
  assert (H2 : pytz_timezone (zone Sample.tokyo) = Some Sample.tokyo) by reflexivity.
  assert (H3 : forall s', CharField_to_python (PyStr s') = Ok (PyStr s'))
    by (intros s'; reflexivity).
  assert (H4 : forall s', CharField_get_db_prep_save (PyStr s') = Ok (PyStr s'))
    by (intros s'; reflexivity).
  repeat (split; [assumption|]).
  exact (proj1 (proj2 (proj2 (timezone_round_trip "Asia/Tokyo" Sample.tokyo H1 H2 H3 H4)))).
Defined.

(** C8 as stated fails: "Mars/Olympus" fits within the field's maximum
    length of 100, and reading it back raises [UnknownTimeZoneError]. *)
Lemma unknown_string_read_raises :
  Z.of_nat (String.length Sample.olympus)
    <= TimeZoneField.max_length (TimeZoneField.__init__ Sample.conf None) /\
  TimeZoneField.to_python (PyStr Sample.olympus) = Raise UnknownTimeZoneError.
Proof. split; [vm_compute; discriminate | reflexivity]. Qed.

Lemma to_python_is_pytz_lookup_witness :
  CharField_to_python (PyStr Sample.olympus) = Ok (PyStr Sample.olympus) /\
  TimeZoneField.to_python (PyStr Sample.olympus) = Raise UnknownTimeZoneError.
Proof.
  assert (H1 : CharField_to_python (PyStr Sample.olympus) = Ok (PyStr Sample.olympus))
    by reflexivity.
  split; [exact H1|].
  exact (to_python_is_pytz_lookup Sample.olympus H1).
Defined.

(** ** The further properties on the sample database *)

#[local] Existing Instance Sample.forms.

(** A field named as another field's cache slot does write into it. *)
Example cache_named_field_interferes :
  let g := {| name := "_when_cache"; timezone := Value (PyTimezone Sample.utc) |} in
  run Sample.utc g [Write PyNone] Sample.cached_noon !! cache_attname Sample.when
    = Some PyNone.
Proof. reflexivity. Qed.

Lemma accesses_touch_two_slots_witness :
  let l := [Read; Write (PyDatetime Sample.new_year); Read] in
  let d : instance := <[ "timezone"%string := PyStr "UTC" ]> Sample.stored_noon in
  run Sample.utc Sample.when l d !! "timezone"%string = Some (PyStr "UTC").
Proof.
  intros l d.
  rewrite (proj1 (accesses_touch_two_slots Sample.utc Sample.when l d)).
  - reflexivity.
  - discriminate.
  - discriminate.
Defined.

Lemma fields_do_not_interfere_witness :
  let l := [Write (PyDatetime Sample.new_year); Read] in
  name Sample.when ≠ name Sample.ends /\
  name Sample.when ≠ cache_attname Sample.ends /\
  name Sample.ends ≠ cache_attname Sample.when /\
  run Sample.utc Sample.ends l Sample.cached_noon !! cache_attname Sample.when
    = Some (PyDatetime Sample.noon_ny).
Proof.
  intros l.
  assert (H1 : name Sample.when ≠ name Sample.ends) by discriminate.
  assert (H2 : name Sample.when ≠ cache_attname Sample.ends) by discriminate.
  assert (H3 : name Sample.ends ≠ cache_attname Sample.when) by discriminate.
  repeat (split; [assumption|]).
  rewrite (proj2 (proj2 (fields_do_not_interfere Sample.utc Sample.when Sample.ends
                           l Sample.cached_noon H1 H2 H3))).
  reflexivity.
Defined.

Lemma reads_settle_witness :
  let d : instance := {[ "when"%string := PyNone ]} in
  d !! cache_attname Sample.when = None /\
  d !! name Sample.when = Some PyNone /\
  access_step Sample.utc Sample.when d Read = d.
Proof.
  intros d.
  assert (H1 : d !! cache_attname Sample.when = None) by reflexivity.
  assert (H2 : d !! name Sample.when = Some PyNone) by reflexivity.
  split; [exact H1|]. split; [exact H2|].
  apply (proj2 (reads_settle Sample.utc Sample.when d) PyNone H1 H2).
  discriminate.
Defined.

Lemma last_write_wins_witness :
  exists d1,
    __set__ Sample.when Sample.cached_noon (PyDatetime Sample.new_year) = Ok d1 /\
    __set__ Sample.when d1 PyNone = __set__ Sample.when Sample.cached_noon PyNone.
Proof.
  eexists. split; [reflexivity|].
  apply (last_write_wins Sample.when Sample.cached_noon _ (PyDatetime Sample.new_year)).
  reflexivity.
Defined.

Lemma get_returns_iff_witness :
  (∅ : instance) !! cache_attname Sample.when = None /\
  (∅ : instance) !! name Sample.when = None /\
  call_timezone (timezone Sample.when) ∅ = Ok (PyTimezone Sample.new_york) /\
  __get__ Sample.utc Sample.when (Some ∅) = Raise KeyError.
Proof.
  assert (H1 : (∅ : instance) !! cache_attname Sample.when = None) by reflexivity.
  assert (H2 : (∅ : instance) !! name Sample.when = None) by reflexivity.
  assert (H3 : call_timezone (timezone Sample.when) ∅ = Ok (PyTimezone Sample.new_york))
    by reflexivity.
  repeat (split; [assumption|]).
  exact (proj1 (proj2 (get_returns_iff Sample.utc Sample.when ∅)) _ H1 H2 H3).
Defined.

Lemma read_then_save_witness :
  Sample.stored_noon !! name Sample.when = Some (PyDatetime Sample.noon) /\
  Sample.stored_noon !! cache_attname Sample.when = None /\
  call_timezone (timezone Sample.when) Sample.stored_noon
    = Ok (PyTimezone Sample.new_york) /\
  resolve Sample.utc (PyTimezone Sample.new_york) = PyTimezone Sample.new_york /\
  exists r d' s,
    __get__ Sample.utc Sample.when (Some Sample.stored_noon) = Ok (PyDatetime r, d') /\
    LocalizedDateTimeField.get_db_prep_save Sample.utc (PyDatetime r)
      = DateTimeField_get_db_prep_save (PyDatetime s) /\
    wall s = 1685635200.
Proof.
  assert (H1 : Sample.stored_noon !! name Sample.when = Some (PyDatetime Sample.noon))
    by reflexivity.
  assert (H2 : Sample.stored_noon !! cache_attname Sample.when = None) by reflexivity.
  assert (H3 : call_timezone (timezone Sample.when) Sample.stored_noon
                 = Ok (PyTimezone Sample.new_york)) by reflexivity.
  assert (H4 : resolve Sample.utc (PyTimezone Sample.new_york)
                 = PyTimezone Sample.new_york) by reflexivity.
  repeat (split; [assumption|]).
  destruct (read_then_save Sample.utc Sample.when Sample.stored_noon Sample.noon
              (PyTimezone Sample.new_york) Sample.new_york H1 H2 H3 H4)
    as (r & d' & s & Hget & Hsave & _ & _ & Hnaive).
  exists r, d', s. split; [exact Hget|]. split; [exact Hsave|].
  destruct (Hnaive eq_refl) as (Hwall & _). rewrite Hwall. reflexivity.
Defined.

Lemma save_conversion_settles_witness :
  LocalizedDateTimeField.save_conversion Sample.utc (PyDatetime Sample.noon)
    = Ok (PyDatetime (localize Sample.utc Sample.noon)) /\
  LocalizedDateTimeField.save_conversion Sample.utc
      (PyDatetime (localize Sample.utc Sample.noon))
    = Ok (PyDatetime (localize Sample.utc Sample.noon)).
Proof.
  assert (H1 : LocalizedDateTimeField.save_conversion Sample.utc (PyDatetime Sample.noon)
                 = Ok (PyDatetime (localize Sample.utc Sample.noon))) by reflexivity.
  split; [exact H1|].
  apply (save_conversion_settles Sample.utc (PyDatetime Sample.noon) _ H1).
  intros dt _ _. reflexivity.
Defined.

Lemma string_context_timezone_witness :
  LocalizedDateTimeField.__init__ "when" (Some (Value (PyStr "Asia/Tokyo")))
    = Ok Sample.when_tokyo /\
  exists ctx,
    call_timezone (timezone Sample.when_tokyo) Sample.stored_noon = Ok ctx /\
    resolve Sample.utc ctx = PyTimezone Sample.tokyo.
Proof.
  assert (H1 : LocalizedDateTimeField.__init__ "when" (Some (Value (PyStr "Asia/Tokyo")))
                 = Ok Sample.when_tokyo) by reflexivity.
  split; [exact H1|].
  exact (proj2 (proj2 (string_context_timezone Sample.utc "when" "Asia/Tokyo"
                         Sample.when_tokyo H1)) Sample.stored_noon).
Defined.

Lemma sample_zone_names (s : string) (tz : tzinfo) :
  pytz_timezone s = Some tz -> pytz_timezone (zone tz) = Some tz.
Proof.
  intros H. cbn in H.
  repeat case_bool_decide; try discriminate; injection H as <-; reflexivity.
Defined.

Lemma to_python_idempotent_witness :
  TimeZoneField.to_python (PyStr "Asia/Tokyo") = Ok (PyTimezone Sample.tokyo) /\
  TimeZoneField.to_python (PyTimezone Sample.tokyo) = Ok (PyTimezone Sample.tokyo).
Proof.
  assert (H1 : TimeZoneField.to_python (PyStr "Asia/Tokyo") = Ok (PyTimezone Sample.tokyo))
    by reflexivity.
  split; [exact H1|].
  apply (to_python_idempotent (PyStr "Asia/Tokyo") (PyTimezone Sample.tokyo)).
  - intros s. reflexivity.
  - reflexivity.
  - intros tz. reflexivity.
  - exact sample_zone_names.
  - exact H1.
Defined.

Lemma flatten_data_text_witness :
  _get_val_from_obj (Some Sample.in_tokyo) = Ok (PyTimezone Sample.tokyo) /\
  (forall s, CharField_to_python (PyStr s) = Ok (PyStr s)) /\
  TimeZoneField.flatten_data "timezone" PyNone (Some Sample.in_tokyo)
    = Ok {[ "timezone"%string := "Asia/Tokyo"%string ]}.
Proof.
  assert (H1 : _get_val_from_obj (Some Sample.in_tokyo) = Ok (PyTimezone Sample.tokyo))
    by reflexivity.
  assert (H2 : forall s, CharField_to_python (PyStr s) = Ok (PyStr s))
    by (intros s; reflexivity).
  split; [exact H1|]. split; [exact H2|].
  destruct (flatten_data_text "timezone" PyNone (Some Sample.in_tokyo)
              (PyTimezone Sample.tokyo) H1 H2) as (text & Hflat & Htz & _).
  destruct (Htz Sample.tokyo eq_refl) as (-> & _). exact Hflat.
Defined.

Lemma formfield_keywords_witness :
  let kwargs : gmap string kwarg := {[ "required"%string := KwValue (PyBool false) ]} in
  kwargs !! "timezone"%string = None /\
  LocalizedDateTimeField.formfield_defaults Sample.function_str Sample.when_tokyo kwargs
    !! "timezone"%string = Some (KwValue (PyStr "Asia/Tokyo")).
Proof.
  intros kwargs.
  assert (H1 : kwargs !! "timezone"%string = None) by reflexivity.
  split; [exact H1|].
  rewrite (proj1 (proj2 (proj2 (formfield_keywords Sample.function_str
                                  Sample.when_tokyo kwargs))) H1).
  reflexivity.
Defined.

Lemma formfield_of_string_context_witness :
  LocalizedDateTimeField.__init__ "when" (Some (Value (PyStr Sample.olympus)))
    = Ok {| name := "when"; timezone := Value (PyStr Sample.olympus) |} /\
  (∅ : gmap string kwarg) !! "timezone"%string = None /\
  LocalizedDateTimeField.formfield_defaults Sample.function_str
      {| name := "when"; timezone := Value (PyStr Sample.olympus) |} ∅
    !! "timezone"%string = None.
Proof.
  assert (H1 : LocalizedDateTimeField.__init__ "when" (Some (Value (PyStr Sample.olympus)))
                 = Ok {| name := "when"; timezone := Value (PyStr Sample.olympus) |})
    by reflexivity.
  assert (H2 : (∅ : gmap string kwarg) !! "timezone"%string = None) by reflexivity.
  split; [exact H1|]. split; [exact H2|].
  rewrite (proj2 (formfield_of_string_context Sample.function_str "when" Sample.olympus
                    _ ∅ H1 H2)).
  reflexivity.
Defined.

Lemma callable_context_read_witness :
  let d : instance :=
    {[ "when"%string := PyDatetime Sample.new_year;
       "timezone"%string := PyStr "Asia/Tokyo" ]} in
  argcount Sample.timezone_of_instance = 1 /\
  __get__ Sample.utc {| name := "when"; timezone := Callable Sample.timezone_of_instance |}
      (Some d)
    = __get__ Sample.utc {| name := "when"; timezone := Value (PyStr "Asia/Tokyo") |}
        (Some d).
Proof.
  intros d.
  assert (H1 : argcount Sample.timezone_of_instance = 1).
  { apply (proj1 (callable_context_read Sample.utc "when" Sample.timezone_of_instance d)).
    left. reflexivity. }
  split; [exact H1|].
  exact (proj2 (callable_context_read Sample.utc "when" Sample.timezone_of_instance d)).
Defined.

Lemma held_value_round_trip_witness :
  pytz_timezone (zone Sample.tokyo) = Some Sample.tokyo /\
  TimeZoneField.round_trip (PyTimezone Sample.tokyo) = Ok (PyTimezone Sample.tokyo) /\
  TimeZoneField.round_trip PyNone = Ok PyNone.
Proof.
  assert (H0 : pytz_timezone (zone Sample.tokyo) = Some Sample.tokyo) by reflexivity.
  assert (H1 : forall s, CharField_to_python (PyStr s) = Ok (PyStr s))
    by (intros s; reflexivity).
  assert (H2 : CharField_to_python PyNone = Ok PyNone) by reflexivity.
  assert (H3 : forall tz, CharField_to_python (PyTimezone tz) = Ok (PyStr (zone tz)))
    by (intros tz; reflexivity).
  assert (H4 : forall v, v = PyNone \/ (exists s, v = PyStr s) ->
                 CharField_get_db_prep_save v = Ok v) by (intros v _; reflexivity).
  split; [exact H0|]. split.
  - apply (held_value_round_trip (PyTimezone Sample.tokyo) H1 H2 H3 H4).
    right. exists Sample.tokyo. split; [reflexivity | exact H0].
  - apply (held_value_round_trip PyNone H1 H2 H3 H4). now left.
Defined.
